(** * profinesser: faculty discovery, record cache and paper ranking

    A shallow embedding of the Python sources

      - [DataTypes.py]      the [Faculty] dataclass,
      - [BaseStorage.py]    the storage interface [BaseStorage],
      - [FacultyAgent.py]   [FacultyAgent.get_experts],
      - [agent2_analyst.py] [ResearchAnalystAgent.run], [_fetch_papers]
                            and [_rank_papers],

    followed by the properties of the specification that are settled on it.

    Conventions of the embedding.
      - A JSON object received from a remote API is a record.  A key read
        with [d['k']] is a plain field, a key read with [d.get('k')] is an
        [option] field ([None] is Python's [None]: key absent or null), a
        key read with [d.get('k', [])] is a list field (absent is [[]]).
      - Python [int] is [Z]; the floats of the ranker are exact rationals
        ([Q]); every score the ranker computes is a multiple of 1/100, so
        the float it stores is the double nearest to the rational here.
      - Python [str] is the [string] of its UTF-8 encoding: equality,
        concatenation and the substring test are those of the encoded
        strings, lengths and slices count characters (code points), not
        bytes.  [str.lower] needs the Unicode character database, which is
        no part of the sources: it is a parameter ([Unicode]), and every
        property holds whatever lowercasing it stands for.
      - A Python [dict] is an association list in insertion order, a
        Python [set] of strings a duplicate-free list.
      - [get_experts] talks to the store and to the OpenAlex API: it is a
        command tree ([Prog]) whose nodes are these calls, executed against
        arbitrary (stateful) handlers and recording the calls in a trace.
        Executions in which a request raises are not part of the model.
      - The debug [print] calls are not modelled. *)

From Stdlib Require Import String Ascii List ZArith QArith Qround Qminmax Bool Lia.
From Stdlib Require Import Permutation Sorted.
Import ListNotations.

Close Scope Q_scope.
Local Open Scope string_scope.
Local Open Scope Z_scope.
Local Open Scope list_scope.

(* ===================================================================== *)
(** ** Python built-ins used by the sources                               *)
(* ===================================================================== *)

Module Py.

(** What [str.lower] takes from the Unicode character database: the
    lowercasing of a non-empty text. *)
Class Unicode : Type := { unicode_lower : string -> string }.

(** [s.lower()]; the empty string has nothing to lower. *)
Definition lower {U : Unicode} (s : string) : string :=
  match s with
  | EmptyString => EmptyString
  | String _ _ => unicode_lower s
  end.

(** [needle in hay] on strings: [needle] occurs as a contiguous substring.
    UTF-8 is self-synchronising: an encoded text occurs in another as bytes
    exactly when it occurs as characters. *)
Fixpoint contains (needle hay : string) : bool :=
  if String.prefix needle hay then true
  else match hay with
       | EmptyString => false
       | String _ hay' => contains needle hay'
       end.

(** A byte 10xxxxxx: it continues the character begun before it. *)
Definition is_continuation (c : ascii) : bool :=
  match c with
  | Ascii _ _ _ _ _ _ b6 b7 => (b7 && negb b6)%bool
  end.

(** [len(s)]: the number of characters. *)
Fixpoint len (s : string) : nat :=
  match s with
  | EmptyString => 0%nat
  | String c s' => if is_continuation c then len s' else Datatypes.S (len s')
  end.

(** [s[:n]] for a non-negative literal [n]: the first [n] characters, each
    with all its bytes. *)
Fixpoint str_take (n : nat) (s : string) : string :=
  match s with
  | EmptyString => EmptyString
  | String c s' =>
      if is_continuation c then String c (str_take n s')
      else match n with
           | O => EmptyString
           | Datatypes.S n' => String c (str_take n' s')
           end
  end.

(** Truthiness of a string: [bool(s)]. *)
Definition str_truthy (s : string) : bool :=
  match s with EmptyString => false | String _ _ => true end.

(** Truthiness of an optional string: [None] and [""] are falsy. *)
Definition opt_truthy (o : option string) : bool :=
  match o with Some s => str_truthy s | None => false end.

(** [a == b] where either side may be [None]. *)
Definition opt_eqb (a b : option string) : bool :=
  match a, b with
  | Some x, Some y => String.eqb x y
  | None, None => true
  | _, _ => false
  end.

(** [sep.join(l)] *)
Fixpoint join (sep : string) (l : list string) : string :=
  match l with
  | [] => ""
  | [x] => x
  | x :: rest => (x ++ sep ++ join sep rest)%string
  end.

(** [l[:n]] for an arbitrary integer [n]: a negative [n] counts from the
    end of the list. *)
Definition slice_to {A : Type} (n : Z) (l : list A) : list A :=
  if 0 <=? n then firstn (Z.to_nat n) l
  else firstn (length l - Z.to_nat (- n))%nat l.

(** [l[i:j]] for non-negative [i <= j]. *)
Definition slice {A : Type} (i j : nat) (l : list A) : list A :=
  firstn (j - i)%nat (skipn i l).

(** [range(0, stop, step)] for a positive [step]. *)
Definition range_step (stop step : nat) : list nat :=
  map (fun j => j * step)%nat (seq 0 ((stop + step - 1) / step)%nat).

(** [sorted(l, key=key, reverse=True)].  Python's sort is stable, also
    with [reverse=True]: elements with equal keys keep their order.  The
    stable descending sort of a list is unique, so it is given here by
    insertion: [x] goes in front of the first element whose key is not
    greater than its own. *)
Section Sorted.
Context {A K : Type} (gtb : K -> K -> bool) (key : A -> K).

Fixpoint insert_desc (x : A) (l : list A) : list A :=
  match l with
  | [] => [x]
  | y :: l' => if gtb (key y) (key x) then y :: insert_desc x l'
               else x :: y :: l'
  end.

Fixpoint sorted_desc (l : list A) : list A :=
  match l with
  | [] => []
  | x :: l' => insert_desc x (sorted_desc l')
  end.

End Sorted.

(** [a] may stand before [b] in a list sorted descending by [key]. *)
Definition desc {A : Type} (key : A -> Z) (a b : A) : Prop := key b <= key a.

(** A loop [for x in l: ... out.append(y)] that appends at most one value
    per element: the values appended, in order. *)
Fixpoint collect {A B : Type} (f : A -> option B) (l : list A) : list B :=
  match l with
  | [] => []
  | x :: l' =>
      match f x with
      | Some y => y :: collect f l'
      | None => collect f l'
      end
  end.

(** A [dict] with string keys, in insertion order. *)
Section Dict.
Context {V : Type}.

(** [d[k] = v]: an existing key keeps its position and takes the new
    value, a new key goes to the end. *)
Fixpoint dict_set (k : string) (v : V) (d : list (string * V)) : list (string * V) :=
  match d with
  | [] => [(k, v)]
  | (k', v') :: d' =>
      if String.eqb k k' then (k, v) :: d' else (k', v') :: dict_set k v d'
  end.

(** [d[k]] ([None] where Python raises [KeyError]); [k in d] is
    [dict_get k d <> None]. *)
Fixpoint dict_get (k : string) (d : list (string * V)) : option V :=
  match d with
  | [] => None
  | (k', v') :: d' => if String.eqb k k' then Some v' else dict_get k d'
  end.

(** [list(d.keys())] *)
Definition dict_keys (d : list (string * V)) : list string := map fst d.

End Dict.

(** [round(x, 2)]: to the nearest multiple of 1/100, exact ties to even. *)
Definition round_half_even (q : Q) : Z :=
  let f := Qfloor q in
  match Qcompare (q - inject_Z f)%Q (1 # 2)%Q with
  | Lt => f
  | Gt => f + 1
  | Eq => if Z.even f then f else f + 1
  end.

Definition round2 (x : Q) : Q :=
  (inject_Z (round_half_even (x * 100)%Q) / 100)%Q.

(** [x > y] on floats. *)
Definition Qgtb (x y : Q) : bool := negb (Qle_bool x y).

End Py.

(* ===================================================================== *)
(** ** DataTypes.py                                                       *)
(* ===================================================================== *)

Module DataTypes.

(** The [Faculty] dataclass.  The annotations say [str] throughout, but
    Python does not enforce them and [get_experts] fills [name],
    [specialty] and [top_paper] from [dict.get], which may give [None]. *)
Record Faculty : Type := {
  name : option string;
  id : string;
  h_index : Z;
  specialty : option string;
  top_paper : option string;
  last_known_institution : string
}.

End DataTypes.

(* ===================================================================== *)
(** ** BaseStorage.py                                                     *)
(* ===================================================================== *)

Module BaseStorage.
Import DataTypes.

(** The abstract class [BaseStorage]: the two methods [FacultyAgent]
    relies on, over the state [S] of a store.  [search_cache] only reads.

    [SQLiteStorage], the one implementation, consists of SQL statements
    handed to SQLite and its FTS5 index; what they do is decided by that
    engine and is not embedded.  [get_experts] is verified against the
    interface, for every store. *)
Class BaseStorage (S : Type) : Type := {
  save_faculty : S -> list Faculty -> S;
  search_cache : S -> string -> list Faculty
}.

End BaseStorage.

(* ===================================================================== *)
(** ** FacultyAgent.py                                                    *)
(* ===================================================================== *)

Module FacultyAgent.
Import Py DataTypes BaseStorage.

(** *** The OpenAlex objects [get_experts] reads *)

(** An element of [authorship['institutions']] or of
    [author['last_known_institutions']]: only [inst.get('id')] is read. *)
Record InstitutionRef : Type := { inst_id : option string }.

(** An element of [inst_res['results']]: [['id']] and [['display_name']]. *)
Record InstitutionResult : Type := {
  result_id : string;
  result_display_name : string
}.

(** [authorship.get('author', {})]: only [.get('id')] is read. *)
Record AuthorRef : Type := { author_id : option string }.

Record Authorship : Type := {
  authorship_author : option AuthorRef;            (* .get('author', {}) *)
  authorship_institutions : list InstitutionRef    (* .get('institutions', []) *)
}.

Record Work : Type := {
  work_title : option string;                      (* .get('title') *)
  work_authorships : list Authorship               (* .get('authorships', []) *)
}.

Record Field : Type := { field_display_name : option string }.

Record Topic : Type := {
  topic_field : option Field;                      (* .get('field', {}) *)
  topic_display_name : option string               (* .get('display_name') *)
}.

Record SummaryStats : Type := { stats_h_index : option Z }.

Record Author : Type := {
  a_id : option string;                                  (* .get('id') *)
  a_display_name : option string;                        (* .get('display_name') *)
  a_summary_stats : option SummaryStats;                 (* .get('summary_stats') or {} *)
  a_topics : option (list Topic);                        (* .get('topics') or [] *)
  a_last_known_institutions : option (list InstitutionRef)
}.

(** *** Commands *)

(** A run of [get_experts] is a tree of calls: to the store
    ([self.storage.search_cache], [self.storage.save_faculty]) and to
    [requests.get] on the three OpenAlex endpoints.  A [Get*] node carries
    the request parameters the source builds; its continuation receives the
    [results] list of the JSON answer. *)
Inductive Prog (A : Type) : Type :=
| Ret (a : A)
| SearchCache (keyword : string) (k : list Faculty -> Prog A)
| SaveFaculty (faculty_list : list Faculty) (k : Prog A)
| GetInstitutions (search : string) (k : list InstitutionResult -> Prog A)
| GetWorks (filter : string) (per_page : Z) (k : list Work -> Prog A)
| GetAuthors (filter : string) (k : list Author -> Prog A).

Arguments Ret {A} a.
Arguments SearchCache {A} keyword k.
Arguments SaveFaculty {A} faculty_list k.
Arguments GetInstitutions {A} search k.
Arguments GetWorks {A} filter per_page k.
Arguments GetAuthors {A} filter k.

(** *** get_experts, lines 40-46: the candidate map *)

(** [any(inst.get('id') == school_id for inst in insts)] *)
Definition any_inst_is (school_id : string) (insts : list InstitutionRef) : bool :=
  existsb (fun inst => opt_eqb (inst_id inst) (Some school_id)) insts.

(** [authorship.get('author', {}).get('id')] *)
Definition authorship_auth_id (authorship : Authorship) : option string :=
  match authorship_author authorship with
  | Some author => author_id author
  | None => None
  end.

(** The body of the inner loop, lines 43-46. *)
Definition map_authorship (school_id : string) (work : Work)
    (potential_map : list (string * option string)) (authorship : Authorship)
    : list (string * option string) :=
  if any_inst_is school_id (authorship_institutions authorship) then
    match authorship_auth_id authorship with
    | Some auth_id =>
        if str_truthy auth_id
        then dict_set auth_id (work_title work) potential_map
        else potential_map
    | None => potential_map
    end
  else potential_map.

(** The body of the outer loop, lines 42-46. *)
Definition map_work (school_id : string)
    (potential_map : list (string * option string)) (work : Work)
    : list (string * option string) :=
  fold_left (map_authorship school_id work) (work_authorships work) potential_map.

(** Lines 40-46: [potential_map] after the loop over the works. *)
Definition build_potential_map (school_id : string) (works : list Work)
    : list (string * option string) :=
  fold_left (map_work school_id) works [].

(** *** get_experts, lines 59-75: verification of one hydrated author *)

Definition last_insts (author : Author) : list InstitutionRef :=
  match a_last_known_institutions author with Some l => l | None => [] end.

Definition topics (author : Author) : list Topic :=
  match a_topics author with Some l => l | None => [] end.

Definition is_at_school (school_id : string) (author : Author) : bool :=
  any_inst_is school_id (last_insts author).

(** [t.get('field', {}).get('display_name')] *)
Definition topic_field_name (t : Topic) : option string :=
  match topic_field t with
  | Some f => field_display_name f
  | None => None
  end.

Definition is_cs (author : Author) : bool :=
  existsb (fun t => opt_eqb (topic_field_name t) (Some "Computer Science"))
          (firstn 3 (topics author)).

(** [(author.get('summary_stats') or {}).get('h_index', 0)] *)
Definition author_h_index (author : Author) : Z :=
  match a_summary_stats author with
  | Some stats => match stats_h_index stats with Some h => h | None => 0 end
  | None => 0
  end.

(** [topics[0].get('display_name') if topics else "AI"] *)
Definition author_specialty (author : Author) : option string :=
  match topics author with
  | t :: _ => topic_display_name t
  | [] => Some "AI"
  end.

(** Lines 60-75.  [a_id in potential_map] and [potential_map[a_id]] are
    one lookup; [None] is never a key of the map. *)
Definition verify_author (school_id school_display : string)
    (potential_map : list (string * option string)) (author : Author)
    : option Faculty :=
  match a_id author with
  | Some aid =>
      match dict_get aid potential_map with
      | Some title =>
          if (is_at_school school_id author && is_cs author)%bool then
            Some {| name := a_display_name author;
                    id := aid;
                    h_index := author_h_index author;
                    specialty := author_specialty author;
                    top_paper := title;
                    last_known_institution := school_display |}
          else None
      | None => None
      end
  | None => None
  end.

(** The loop of lines 59-75 over one answer: the records appended to
    [verified_list]. *)
Definition verify_batch (school_id school_display : string)
    (potential_map : list (string * option string)) (results : list Author)
    : list Faculty :=
  collect (verify_author school_id school_display potential_map) results.

(** *** get_experts *)

(** [auth_ids[i:i+50] for i in range(0, len(auth_ids), 50)] *)
Definition batches (auth_ids : list string) : list (list string) :=
  map (fun i => slice i (i + 50) auth_ids) (range_step (length auth_ids) 50).

(** Lines 51-75: one authors request per batch, the verified records of
    each answer appended to [verified_list]; then [k]. *)
Fixpoint hydrate {A : Type} (school_id school_display : string)
    (potential_map : list (string * option string))
    (todo : list (list string)) (verified_list : list Faculty)
    (k : list Faculty -> Prog A) : Prog A :=
  match todo with
  | [] => k verified_list
  | batch :: todo' =>
      GetAuthors ("id:" ++ join "|" batch)%string (fun results =>
        hydrate school_id school_display potential_map todo'
          (verified_list ++ verify_batch school_id school_display potential_map results)
          k)
  end.

(** Line 20: the cached records of the school. *)
Definition school_matches {U : Unicode} (school_name : string)
    (cached : list Faculty) : list Faculty :=
  filter (fun f => contains (lower school_name) (lower (last_known_institution f)))
         cached.

(** Lines 25-81. *)
Definition cache_miss (school_name skill_keyword : string) (limit : Z)
    : Prog (list Faculty) :=
  GetInstitutions school_name (fun inst_results =>
    match inst_results with
    | [] => Ret []
    | inst :: _ =>
        let school_id := result_id inst in
        let school_display := result_display_name inst in
        GetWorks ("institutions.id:" ++ school_id
                  ++ ",title_and_abstract.search:" ++ skill_keyword
                  ++ ",publication_year:>2021")%string 50
          (fun works =>
             let potential_map := build_potential_map school_id works in
             let auth_ids := dict_keys potential_map in
             hydrate school_id school_display potential_map (batches auth_ids) []
               (fun verified_list =>
                  let final_results := sorted_desc Z.gtb h_index verified_list in
                  SaveFaculty final_results (Ret (slice_to limit final_results))))
    end).

(** Lines 15-81. *)
Definition get_experts {U : Unicode} (school_name skill_keyword : string)
    (limit : Z) : Prog (list Faculty) :=
  SearchCache skill_keyword (fun cached =>
    match cached with
    | _ :: _ =>
        match school_matches school_name cached with
        | _ :: _ =>
            Ret (slice_to limit
                   (sorted_desc Z.gtb h_index (school_matches school_name cached)))
        | [] => cache_miss school_name skill_keyword limit
        end
    | [] => cache_miss school_name skill_keyword limit
    end).

(** *** Running a command tree *)

(** The OpenAlex service: each endpoint answers from, and may change, a
    state [H] of its own. *)
Record OpenAlex (H : Type) : Type := {
  institutions : H -> string -> list InstitutionResult * H;
  works : H -> string -> Z -> list Work * H;
  authors : H -> string -> list Author * H
}.

Arguments institutions {H} _ _ _.
Arguments works {H} _ _ _ _.
Arguments authors {H} _ _ _.

(** What a run did, in order: every call with what it was given and what
    it returned. *)
Inductive Call : Type :=
| CallSearchCache (keyword : string) (returned : list Faculty)
| CallSaveFaculty (faculty_list : list Faculty)
| CallInstitutions (search : string) (results : list InstitutionResult)
| CallWorks (filter : string) (per_page : Z) (results : list Work)
| CallAuthors (filter : string) (results : list Author).

(** A call to [requests.get]. *)
Definition is_external (c : Call) : bool :=
  match c with
  | CallInstitutions _ _ | CallWorks _ _ _ | CallAuthors _ _ => true
  | CallSearchCache _ _ | CallSaveFaculty _ => false
  end.

Definition is_save (c : Call) : bool :=
  match c with CallSaveFaculty _ => true | _ => false end.

(** The outcome of a run: the returned value, the store and the service
    afterwards, and the calls made. *)
Record Outcome (A S H : Type) : Type := {
  returned : A;
  store_after : S;
  service_after : H;
  calls : list Call
}.

Arguments returned {A S H} _.
Arguments store_after {A S H} _.
Arguments service_after {A S H} _.
Arguments calls {A S H} _.

Section Exec.
Context {S H : Type} `{BaseStorage S} (api : OpenAlex H).

Definition logged {A : Type} (c : Call) (o : Outcome A S H) : Outcome A S H :=
  {| returned := returned o; store_after := store_after o;
     service_after := service_after o; calls := c :: calls o |}.

Fixpoint exec {A : Type} (p : Prog A) (st : S) (h : H) : Outcome A S H :=
  match p with
  | Ret a => {| returned := a; store_after := st; service_after := h; calls := [] |}
  | SearchCache keyword k =>
      let cached := search_cache st keyword in
      logged (CallSearchCache keyword cached) (exec (k cached) st h)
  | SaveFaculty l k =>
      logged (CallSaveFaculty l) (exec k (save_faculty st l) h)
  | GetInstitutions search k =>
      let '(results, h') := institutions api h search in
      logged (CallInstitutions search results) (exec (k results) st h')
  | GetWorks f per_page k =>
      let '(results, h') := works api h f per_page in
      logged (CallWorks f per_page results) (exec (k results) st h')
  | GetAuthors f k =>
      let '(results, h') := authors api h f in
      logged (CallAuthors f results) (exec (k results) st h')
  end.

End Exec.

End FacultyAgent.

(* ===================================================================== *)
(** ** agent2_analyst.py                                                  *)
(* ===================================================================== *)

Module agent2_analyst.
Import Py.

(** A paper of the Semantic Scholar answer. *)
Record Paper : Type := {
  paper_title : string;                 (* paper['title'] *)
  paper_abstract : option string;       (* paper.get('abstract'), paper['abstract'] *)
  paper_year : option Z;                (* paper.get('year'), paper['year'] *)
  paper_citationCount : option Z;       (* paper.get('citationCount', 0) *)
  paper_url : string                    (* paper['url'] *)
}.

(** An element of the list [_rank_papers] returns. *)
Record ScoredPaper : Type := {
  title : string;
  year : Z;
  url : string;
  relevance_score : Q;
  matched_keywords : list string;
  abstract_snippet : string
}.

(** [input_data]: ['authorId'], ['student_skills'] and
    ['student_interests'] are read with [[]], ['professor_name'] with
    [.get(.., 'Unknown')]. *)
Record InputData : Type := {
  authorId : string;
  student_skills : list string;
  student_interests : list string;
  input_professor_name : option string
}.

Record StudentProfile : Type := {
  skills : list string;
  interests : list string
}.

Record OutputPayload : Type := {
  professor_name : string;
  analysis_timestamp : string;
  student_profile_used : StudentProfile;
  recommended_papers : list ScoredPaper
}.

(** What [run] returns: the dict with the single key ["error"], or the
    payload. *)
Inductive RunResult : Type :=
| ErrorResult (error : string)
| Payload (output_payload : OutputPayload).

(** The body of the papers answer: [data.get('data', [])]. *)
Record PapersJson : Type := { data : option (list Paper) }.

(** What [requests.get] does on the papers endpoint: it raises a
    [RequestException] (no connection, timeout, ...) or it returns a
    response with a status code and a JSON body. *)
Inductive Response : Type :=
| Raises
| Answers (status_code : Z) (json : PapersJson).

(** [response.raise_for_status()] raises [HTTPError], a
    [RequestException], on the 4xx and 5xx codes. *)
Definition raise_for_status_raises (status_code : Z) : bool :=
  ((400 <=? status_code) && (status_code <? 600))%bool.

(** The request fails with a transport or HTTP error. *)
Definition request_fails (r : Response) : Prop :=
  match r with
  | Raises => True
  | Answers status_code _ => raise_for_status_raises status_code = true
  end.

(** *** _rank_papers *)

(** Line 88: [set([k.lower() for k in interests + skills])].  Python
    leaves the iteration order of a set open; here it is the order of this
    list, and nothing below depends on it. *)
Definition target_keywords {U : Unicode} (interests skills : list string)
    : list string :=
  nodup string_dec (map lower (interests ++ skills)).

(** Lines 99-100 *)
Definition text_content {U : Unicode} (title abstract : string) : string :=
  lower ((title ++ " ") ++ (title ++ " ") ++ abstract)%string.

(** Lines 103-109: the keyword loop, from [score = 0] and [matches = []]. *)
Definition keyword_step (text : string) (acc : Z * list string) (keyword : string)
    : Z * list string :=
  let '(score, matches) := acc in
  if contains keyword text then (score + 1, matches ++ [keyword])
  else (score, matches).

Definition keyword_loop (keywords : list string) (text : string) : Z * list string :=
  fold_left (keyword_step text) keywords (0, []).

(** Line 113 *)
Definition citation_boost (paper : Paper) : Q :=
  let citationCount :=
    match paper_citationCount paper with Some c => c | None => 0 end in
  Qmin (inject_Z citationCount / 100)%Q 2%Q.

(** Lines 91-125: the body of the loop over the papers; [None] where the
    paper is skipped, otherwise the dict appended to [ranked]. *)
Definition rank_paper {U : Unicode} (keywords : list string) (paper : Paper)
    : option ScoredPaper :=
  match paper_abstract paper, paper_year paper with
  | Some abstract, Some y =>
      if negb (str_truthy abstract) then None
      else if y <? 2018 then None
      else
        let text := text_content (paper_title paper) abstract in
        let '(score, matches) := keyword_loop keywords text in
        let final_score := (inject_Z score + citation_boost paper)%Q in
        if Qgtb final_score 0%Q then
          Some {| title := paper_title paper;
                  year := y;
                  url := paper_url paper;
                  relevance_score := round2 final_score;
                  matched_keywords := matches;
                  abstract_snippet := (str_take 200 abstract ++ "...")%string |}
        else None
  | _, _ => None
  end.

Definition _rank_papers {U : Unicode} (papers : list Paper)
    (interests skills : list string) : list ScoredPaper :=
  let ranked := collect (rank_paper (target_keywords interests skills)) papers in
  sorted_desc Qgtb relevance_score ranked.

Section Run.
Context {U : Unicode}.

(** [requests.get(endpoint, headers=self.headers, params=params)] on the
    endpoint and the [limit] of [params], and
    [datetime.now().isoformat()]. *)
Variable requests_get : string -> Z -> Response.
Variable now_isoformat : string.

Definition base_url : string := "https://api.semanticscholar.org/graph/v1".

(** *** _fetch_papers ([run] calls it with the default [limit = 50]).
    [None] for [data.get('data', [])] stands for an absent key; it is
    given as [[]]. *)
Definition _fetch_papers (author_id : string) (limit : Z) : list Paper :=
  let endpoint := (base_url ++ "/author/" ++ author_id ++ "/papers")%string in
  match requests_get endpoint limit with
  | Raises => []
  | Answers status_code json =>
      if raise_for_status_raises status_code then []
      else match data json with Some l => l | None => [] end
  end.

(** *** run *)
Definition run (input_data : InputData) : RunResult :=
  let raw_papers := _fetch_papers (authorId input_data) 50 in
  match raw_papers with
  | [] => ErrorResult "No papers found or API error."
  | _ :: _ =>
      let scored_papers :=
        _rank_papers raw_papers (student_interests input_data)
                     (student_skills input_data) in
      let top_papers := slice_to 3 scored_papers in
      Payload
        {| professor_name :=
             match input_professor_name input_data with
             | Some n => n
             | None => "Unknown"
             end;
           analysis_timestamp := now_isoformat;
           student_profile_used :=
             {| skills := student_skills input_data;
                interests := student_interests input_data |};
           recommended_papers := top_papers |}
  end.

End Run.

End agent2_analyst.

(* ===================================================================== *)
(** ** Vocabulary for the properties of get_experts                       *)
(* ===================================================================== *)

Module FacultyAgentSpec.
Import Py DataTypes BaseStorage FacultyAgent.

(** [authorship] names the non-empty author id [a] and lists the school
    among its institutions: the condition under which line 46 assigns
    [potential_map[a]]. *)
Definition credits (school_id a : string) (authorship : Authorship) : bool :=
  (any_inst_is school_id (authorship_institutions authorship)
   && opt_eqb (authorship_auth_id authorship) (Some a)
   && str_truthy a)%bool.

(** [work] has such an authorship for [a]. *)
Definition mentions (school_id a : string) (work : Work) : bool :=
  existsb (credits school_id a) (work_authorships work).

(** The [filter] parameter of the works request, line 35. *)
Definition works_filter (school_id skill_keyword : string) : string :=
  ("institutions.id:" ++ school_id
   ++ ",title_and_abstract.search:" ++ skill_keyword
   ++ ",publication_year:>2021")%string.

(** The [filter] parameter of an authors request, lines 52 and 55. *)
Definition authors_filter (batch : list string) : string :=
  ("id:" ++ join "|" batch)%string.

(** An authors request and its answer, as a call. *)
Definition call_authors (answer : string * list Author) : Call :=
  CallAuthors (fst answer) (snd answer).

(** All hydrated authors, in the order received. *)
Definition hydrated (answers : list (string * list Author)) : list Author :=
  concat (map snd answers).

(** [o] with the calls [tr] made before it. *)
Definition after_calls {A S H : Type} (tr : list Call) (o : Outcome A S H)
    : Outcome A S H :=
  {| returned := returned o; store_after := store_after o;
     service_after := service_after o; calls := tr ++ calls o |}.

Section Shape.
Context {U : Unicode} {S H : Type} `{BaseStorage S} (api : OpenAlex H).
Variables (st : S) (h : H) (school_name skill_keyword : string) (limit : Z).

(** The three ways a call of [get_experts] can go. *)
Inductive run_shape : Outcome (list Faculty) S H -> Prop :=
| shape_cache_hit :
    let cached := search_cache st skill_keyword in
    school_matches school_name cached <> [] ->
    run_shape
      {| returned :=
           slice_to limit
             (sorted_desc Z.gtb h_index (school_matches school_name cached));
         store_after := st;
         service_after := h;
         calls := [CallSearchCache skill_keyword cached] |}
| shape_no_institution (h1 : H) :
    let cached := search_cache st skill_keyword in
    school_matches school_name cached = [] ->
    institutions api h school_name = ([], h1) ->
    run_shape
      {| returned := [];
         store_after := st;
         service_after := h1;
         calls := [CallSearchCache skill_keyword cached;
                   CallInstitutions school_name []] |}
| shape_cache_miss (inst : InstitutionResult) (others : list InstitutionResult)
    (h1 : H) (found : list Work) (h2 : H)
    (answers : list (string * list Author)) (h3 : H) :
    let cached := search_cache st skill_keyword in
    let school_id := result_id inst in
    let potential_map := build_potential_map school_id found in
    let final_results :=
      sorted_desc Z.gtb h_index
        (verify_batch school_id (result_display_name inst) potential_map
           (hydrated answers)) in
    school_matches school_name cached = [] ->
    institutions api h school_name = (inst :: others, h1) ->
    works api h1 (works_filter school_id skill_keyword) 50 = (found, h2) ->
    map fst answers = map authors_filter (batches (dict_keys potential_map)) ->
    run_shape
      {| returned := slice_to limit final_results;
         store_after := save_faculty st final_results;
         service_after := h3;
         calls := CallSearchCache skill_keyword cached
                  :: CallInstitutions school_name (inst :: others)
                  :: CallWorks (works_filter school_id skill_keyword) 50 found
                  :: map call_authors answers
                  ++ [CallSaveFaculty final_results] |}.

End Shape.

End FacultyAgentSpec.

(* ===================================================================== *)
(** ** The ranker's scoring, in the words of the specification           *)
(* ===================================================================== *)

Module AnalystSpec.
Import Py agent2_analyst.

(** The paper has an abstract, a year, and the year is 2018 or later. *)
Definition survives_filter (paper : Paper) (abstract : string) (y : Z) : Prop :=
  paper_abstract paper = Some abstract /\ abstract <> ""
  /\ paper_year paper = Some y /\ 2018 <= y.

(** The lowercased text: the title twice, then the abstract, separated by
    single spaces. *)
Definition spec_text {U : Unicode} (paper : Paper) (abstract : string) : string :=
  lower (paper_title paper ++ " " ++ paper_title paper ++ " " ++ abstract)%string.

(** The student keywords that occur in the text. *)
Definition spec_matched {U : Unicode} (interests skills : list string)
    (paper : Paper) (abstract : string) : list string :=
  filter (fun keyword => contains keyword (spec_text paper abstract))
         (target_keywords interests skills).

(** min(citationCount / 100, 2.0), an absent count being 0. *)
Definition spec_bonus (paper : Paper) : Q :=
  Qmin (inject_Z (match paper_citationCount paper with Some c => c | None => 0 end)
        / 100)%Q 2%Q.

(** Number of matched keywords plus the bonus, rounded to 2 decimals. *)
Definition spec_score {U : Unicode} (interests skills : list string)
    (paper : Paper) (abstract : string) : Q :=
  round2 (inject_Z (Z.of_nat (length (spec_matched interests skills paper abstract)))
          + spec_bonus paper)%Q.

(** The output entry of a paper. *)
Definition spec_entry {U : Unicode} (interests skills : list string)
    (paper : Paper) (abstract : string) (y : Z) : ScoredPaper :=
  {| title := paper_title paper;
     year := y;
     url := paper_url paper;
     relevance_score := spec_score interests skills paper abstract;
     matched_keywords := spec_matched interests skills paper abstract;
     abstract_snippet := (str_take 200 abstract ++ "...")%string |}.

End AnalystSpec.

(* ===================================================================== *)
(** ** Inputs of the test suites                                          *)
(* ===================================================================== *)

Module Fixtures.
Import Py DataTypes BaseStorage FacultyAgent agent2_analyst.

(** The texts of the test suites are ASCII, where [str.lower] lowers the
    letters A-Z and leaves every other character as it is. *)
Definition lower_ascii (c : ascii) : ascii :=
  let n := nat_of_ascii c in
  if (Nat.leb 65 n && Nat.leb n 90)%bool then ascii_of_nat (n + 32)%nat else c.

Fixpoint ascii_lower (s : string) : string :=
  match s with
  | EmptyString => EmptyString
  | String c s' => String (lower_ascii c) (ascii_lower s')
  end.

Definition ascii_text : Unicode := {| unicode_lower := ascii_lower |}.

(** Text with accented Latin letters: [str.lower] also lowers the letters
    of U+00C0..U+00DE (but not the sign U+00D7), in UTF-8 the byte 0xC3
    followed by 0x80..0x9E, by adding 0x20 to the second byte. *)
Definition upper_latin1 (c1 c2 : ascii) : bool :=
  let n := nat_of_ascii c2 in
  (Nat.eqb (nat_of_ascii c1) 195 && Nat.leb 128 n && Nat.leb n 158
   && negb (Nat.eqb n 151))%bool.

Fixpoint latin_lower (s : string) : string :=
  match s with
  | EmptyString => EmptyString
  | String c1 rest =>
      match rest with
      | String c2 s' =>
          if upper_latin1 c1 c2
          then String c1 (String (ascii_of_nat (nat_of_ascii c2 + 32)) (latin_lower s'))
          else String (lower_ascii c1) (latin_lower rest)
      | EmptyString => String (lower_ascii c1) EmptyString
      end
  end.

Definition latin_text : Unicode := {| unicode_lower := latin_lower |}.

(** *** tests/FacutlyAgent_test.py *)

(** The [mock_storage] fixture: [search_cache] returns a fixed list
    whatever the keyword, [save_faculty] records what it was called with. *)
Record MockStorage : Type := {
  search_cache_return_value : list Faculty;
  save_faculty_calls : list (list Faculty)
}.

#[global] Instance mock_storage : BaseStorage MockStorage := {
  save_faculty m l :=
    {| search_cache_return_value := search_cache_return_value m;
       save_faculty_calls := save_faculty_calls m ++ [l] |};
  search_cache m _ := search_cache_return_value m
}.

Definition storage_returning (l : list Faculty) : MockStorage :=
  {| search_cache_return_value := l; save_faculty_calls := [] |}.

(** [requests.get] patched with canned answers; the state counts the
    requests made. *)
Definition mock_get (insts : list InstitutionResult) (found : list Work)
    (hydrated : list Author) : OpenAlex nat :=
  {| institutions := fun n _ => (insts, Datatypes.S n);
     works := fun n _ _ => (found, Datatypes.S n);
     authors := fun n _ => (hydrated, Datatypes.S n) |}.

Definition cached_faculty : Faculty :=
  {| name := Some "Cached Expert";
     id := "https://openalex.org/A1";
     h_index := 100;
     specialty := Some "CS";
     top_paper := Some "Old Paper";
     last_known_institution := "UCLA" |}.

Definition cached_junior : Faculty :=
  {| name := Some "Cached Junior";
     id := "https://openalex.org/A7";
     h_index := 12;
     specialty := Some "CS";
     top_paper := Some "New Paper";
     last_known_institution := "UCLA" |}.

(** A cached record of a school with an accented name. *)
Definition cached_polytechnicien : Faculty :=
  {| name := Some "Cached Polytechnicien";
     id := "https://openalex.org/A9";
     h_index := 31;
     specialty := Some "CS";
     top_paper := Some "Un article";
     last_known_institution := "École Polytechnique de Paris" |}.

Definition school_id : string := "https://openalex.org/I1".

Definition mock_inst_resp : list InstitutionResult :=
  [{| result_id := school_id; result_display_name := "UCLA" |}].

Definition gnn_authorship : Authorship :=
  {| authorship_author := Some {| author_id := Some "https://openalex.org/A1" |};
     authorship_institutions := [{| inst_id := Some school_id |}] |}.

Definition gnn_paper : Work :=
  {| work_title := Some "GNN Paper"; work_authorships := [gnn_authorship] |}.

(** A second, later work of the same author at the same school. *)
Definition later_paper : Work :=
  {| work_title := Some "Later Paper"; work_authorships := [gnn_authorship] |}.

Definition dr_graph : Author :=
  {| a_id := Some "https://openalex.org/A1";
     a_display_name := Some "Dr. Graph";
     a_summary_stats := Some {| stats_h_index := Some 42 |};
     a_topics :=
       Some [{| topic_field := Some {| field_display_name := Some "Computer Science" |};
                topic_display_name := Some "Deep Learning" |}];
     a_last_known_institutions := Some [{| inst_id := Some school_id |}] |}.

(** The chemist of [test_filter_out_non_cs]. *)
Definition molecule_paper : Work :=
  {| work_title := Some "Molecule Paper";
     work_authorships :=
       [{| authorship_author := Some {| author_id := Some "A2" |};
           authorship_institutions := [{| inst_id := Some school_id |}] |}] |}.

Definition dr_chemistry : Author :=
  {| a_id := Some "A2";
     a_display_name := Some "Dr. Chemistry";
     a_summary_stats := Some {| stats_h_index := Some 10 |};
     a_topics :=
       Some [{| topic_field := Some {| field_display_name := Some "Chemistry" |};
                topic_display_name := None |}];
     a_last_known_institutions := Some [{| inst_id := Some school_id |}] |}.

Definition dr_graph_record : Faculty :=
  {| name := Some "Dr. Graph";
     id := "https://openalex.org/A1";
     h_index := 42;
     specialty := Some "Deep Learning";
     top_paper := Some "GNN Paper";
     last_known_institution := "UCLA" |}.

(** *** test_agent_analyst.py *)

Definition input_data : InputData :=
  {| authorId := "12345";
     student_skills := ["Python"; "Transformers"];
     student_interests := ["Deep Learning"; "NLP"];
     input_professor_name := Some "Dr. Test" |}.

Definition paper1 : Paper :=
  {| paper_title := "Deep Learning with Transformers";
     paper_abstract := Some "A study on NLP using Python and Transformers.";
     paper_year := Some 2023;
     paper_citationCount := Some 50;
     paper_url := "http://paper1.com" |}.

Definition paper2 : Paper :=
  {| paper_title := "Old History of AI";
     paper_abstract := Some "Deep Learning concepts from the past.";
     paper_year := Some 2010;
     paper_citationCount := Some 100;
     paper_url := "http://paper2.com" |}.

Definition paper3 : Paper :=
  {| paper_title := "Irrelevant Biology Study";
     paper_abstract := Some "Cells and mitochondria analysis.";
     paper_year := Some 2022;
     paper_citationCount := Some 5;
     paper_url := "http://paper3.com" |}.

Definition mock_papers : list Paper := [paper1; paper2; paper3].

(** Two more recent papers, so that more than three are ranked. *)
Definition paper4 : Paper :=
  {| paper_title := "Python for NLP";
     paper_abstract := Some "Tooling notes.";
     paper_year := Some 2021;
     paper_citationCount := Some 0;
     paper_url := "http://paper4.com" |}.

Definition paper5 : Paper :=
  {| paper_title := "Transformers at Scale";
     paper_abstract := Some "Scaling laws.";
     paper_year := Some 2024;
     paper_citationCount := Some 300;
     paper_url := "http://paper5.com" |}.

(** A paper with an accented title. *)
Definition paper_ecole : Paper :=
  {| paper_title := "école normale";
     paper_abstract := Some "Notes de cours.";
     paper_year := Some 2020;
     paper_citationCount := Some 0;
     paper_url := "http://paper6.com" |}.

(** The papers endpoint answering 200 with the given papers. *)
Definition get_returning (papers : list Paper) : string -> Z -> Response :=
  fun _ _ => Answers 200 {| data := Some papers |}.

(** The papers request failing: [requests.get] itself raises, or, as in
    [test_run_api_failure], the answer makes [raise_for_status] raise. *)
Definition get_raising : string -> Z -> Response := fun _ _ => Raises.

Definition get_server_error : string -> Z -> Response :=
  fun _ _ => Answers 500 {| data := None |}.

End Fixtures.

(* ===================================================================== *)
(** ** The verification checks, as the specification words them          *)
(* ===================================================================== *)

Module VerificationSpec.
Import Py DataTypes FacultyAgent.

(** [last_known_institutions] contains the resolved institution id. *)
Definition affiliated (school_id : string) (author : Author) : Prop :=
  exists inst, In inst (last_insts author) /\ inst_id inst = Some school_id.

(** One of the first three listed topics has the field display name
    "Computer Science", exactly. *)
Definition in_computer_science (author : Author) : Prop :=
  exists t, In t (firstn 3 (topics author))
            /\ topic_field_name t = Some "Computer Science".

End VerificationSpec.

(* ===================================================================== *)
(** ** The constructors: request headers                                  *)
(* ===================================================================== *)

Module Headers.
Import Py.

(** [FacultyAgent.__init__], lines 12-13: the value of the "User-Agent"
    header.  [email] is [None] by default; an empty string is falsy too. *)
Definition agent_str (email : option string) : string :=
  match email with
  | Some e =>
      if str_truthy e then ("FacultyAgent/1.0 (mailto:" ++ e ++ ")")%string
      else "FacultyAgent/1.0"
  | None => "FacultyAgent/1.0"
  end.

End Headers.

(* ===================================================================== *)
(** ** Further vocabulary                                                 *)
(* ===================================================================== *)

Module TraceSpec.
Import Py DataTypes FacultyAgent.

(** The [filter] parameters of the authors requests of a run, in order. *)
Definition authors_requests (tr : list Call) : list string :=
  collect (fun c => match c with CallAuthors request _ => Some request | _ => None end)
          tr.

(** [a] may stand before [b] in a list sorted descending by a rational
    [key]. *)
Definition descQ {A : Type} (key : A -> Q) (a b : A) : Prop :=
  (key b <= key a)%Q.

(** Two ranked entries that differ at most in the order of their matched
    keywords. *)
Definition same_entry (e1 e2 : agent2_analyst.ScoredPaper) : Prop :=
  agent2_analyst.title e1 = agent2_analyst.title e2
  /\ agent2_analyst.year e1 = agent2_analyst.year e2
  /\ agent2_analyst.url e1 = agent2_analyst.url e2
  /\ agent2_analyst.relevance_score e1 = agent2_analyst.relevance_score e2
  /\ Permutation (agent2_analyst.matched_keywords e1)
                 (agent2_analyst.matched_keywords e2)
  /\ agent2_analyst.abstract_snippet e1 = agent2_analyst.abstract_snippet e2.

End TraceSpec.

(* ##################################################################### *)
(** * Properties                                                          *)
(* ##################################################################### *)

(* ===================================================================== *)
(** ** Facts about the built-ins                                          *)
(* ===================================================================== *)

Module PyFacts.
Import Py.

(** *** Slices *)

Lemma slice_to_prefix {A : Type} (n : Z) (l : list A) :
  exists rest, l = slice_to n l ++ rest.
Proof.
  unfold slice_to. destruct (0 <=? n).
  - exists (skipn (Z.to_nat n) l). symmetry. apply firstn_skipn.
  - exists (skipn (length l - Z.to_nat (- n)) l). symmetry. apply firstn_skipn.
Qed.

Lemma slice_to_length {A : Type} (n : Z) (l : list A) :
  0 <= n -> Z.of_nat (length (slice_to n l)) <= n.
Proof.
  intros Hn. unfold slice_to.
  destruct (Z.leb_spec 0 n) as [_ | Hlt]; [| lia].
  rewrite length_firstn. lia.
Qed.

Lemma slice_to_incl {A : Type} (n : Z) (l : list A) (x : A) :
  In x (slice_to n l) -> In x l.
Proof.
  intros Hx. destruct (slice_to_prefix n l) as [rest Hrest].
  rewrite Hrest. apply in_or_app. now left.
Qed.

Lemma slice_to_all {A : Type} (n : Z) (l : list A) :
  Z.of_nat (length l) <= n -> slice_to n l = l.
Proof.
  intros Hn. unfold slice_to.
  destruct (Z.leb_spec 0 n) as [_ | Hlt]; [| lia].
  apply firstn_all2. lia.
Qed.

(** *** collect *)

Lemma collect_app {A B : Type} (f : A -> option B) (l1 l2 : list A) :
  collect f (l1 ++ l2) = collect f l1 ++ collect f l2.
Proof.
  induction l1 as [| x l1 IH]; simpl; [reflexivity |].
  destruct (f x); simpl; now rewrite IH.
Qed.

Lemma in_collect {A B : Type} (f : A -> option B) (l : list A) (y : B) :
  In y (collect f l) <-> exists x, In x l /\ f x = Some y.
Proof.
  induction l as [| x l IH]; simpl.
  - split; [tauto | intros (x & [] & _)].
  - destruct (f x) as [y' |] eqn:Hfx; simpl; rewrite IH; split.
    + intros [-> | (x' & Hin & Hx')]; eauto.
    + intros (x' & [-> | Hin] & Hx'); [left; congruence | eauto].
    + intros (x' & Hin & Hx'); eauto.
    + intros (x' & [-> | Hin] & Hx'); [congruence | eauto].
Qed.

Lemma collect_skip {A B : Type} (f : A -> option B) (l1 l2 : list A) (x : A) :
  f x = None -> collect f (l1 ++ x :: l2) = collect f (l1 ++ l2).
Proof.
  intros Hx. rewrite !collect_app. simpl. now rewrite Hx.
Qed.

(** *** The stable descending sort *)

Section SortPerm.
Context {A K : Type} (gtb : K -> K -> bool) (key : A -> K).

Lemma insert_desc_perm (x : A) (l : list A) :
  Permutation (insert_desc gtb key x l) (x :: l).
Proof.
  induction l as [| y l IH]; simpl; [reflexivity |].
  destruct (gtb (key y) (key x)); [| reflexivity].
  rewrite IH. apply perm_swap.
Qed.

Lemma sorted_desc_perm (l : list A) :
  Permutation (sorted_desc gtb key l) l.
Proof.
  induction l as [| x l IH]; simpl; [reflexivity |].
  rewrite insert_desc_perm. now constructor.
Qed.

Lemma sorted_desc_In (l : list A) (x : A) :
  In x (sorted_desc gtb key l) <-> In x l.
Proof.
  split; apply Permutation_in;
    [| symmetry]; apply sorted_desc_perm.
Qed.

Lemma sorted_desc_length (l : list A) :
  length (sorted_desc gtb key l) = length l.
Proof. apply Permutation_length, sorted_desc_perm. Qed.

End SortPerm.

Section SortZ.
Context {A : Type} (key : A -> Z).

Lemma insert_desc_sorted (x : A) (l : list A) :
  StronglySorted (desc key) l -> StronglySorted (desc key) (insert_desc Z.gtb key x l).
Proof.
  induction 1 as [| y l Hl IH Hy]; simpl.
  - repeat constructor.
  - destruct (Z.gtb_spec (key y) (key x)) as [Hgt | Hle].
    + constructor; [exact IH |].
      apply Forall_forall. intros z Hz.
      apply (Permutation_in _ (insert_desc_perm Z.gtb key x l)) in Hz.
      destruct Hz as [<- | Hz]; [unfold desc; lia |].
      rewrite Forall_forall in Hy. now apply Hy.
    + constructor; [now constructor |].
      constructor; [exact Hle |].
      eapply Forall_impl; [| exact Hy].
      unfold desc. intros; lia.
Qed.

Lemma sorted_desc_sorted (l : list A) :
  StronglySorted (desc key) (sorted_desc Z.gtb key l).
Proof.
  induction l as [| x l IH]; simpl; [constructor |].
  now apply insert_desc_sorted.
Qed.

(** Stability: among the elements of one key, the order is the input's. *)
Lemma insert_desc_stable (h : Z) (x : A) (l : list A) :
  filter (fun a => key a =? h) (insert_desc Z.gtb key x l)
  = filter (fun a => key a =? h) (x :: l).
Proof.
  induction l as [| y l IH]; [reflexivity |].
  cbn [insert_desc].
  destruct (Z.gtb_spec (key y) (key x)) as [Hgt | Hle]; [| reflexivity].
  cbn [filter] in *. rewrite IH.
  destruct (Z.eqb_spec (key y) h), (Z.eqb_spec (key x) h); try reflexivity.
  lia.
Qed.

Lemma sorted_desc_stable (h : Z) (l : list A) :
  filter (fun a => key a =? h) (sorted_desc Z.gtb key l)
  = filter (fun a => key a =? h) l.
Proof.
  induction l as [| x l IH]; [reflexivity |].
  cbn [sorted_desc]. rewrite insert_desc_stable.
  cbn [filter]. now rewrite IH.
Qed.

Lemma StronglySorted_app_l (l1 l2 : list A) :
  StronglySorted (desc key) (l1 ++ l2) -> StronglySorted (desc key) l1.
Proof.
  induction l1 as [| x l1 IH]; simpl; intros Hs; [constructor |].
  apply StronglySorted_inv in Hs. destruct Hs as [Hs Hx].
  constructor; [now apply IH |].
  apply Forall_app in Hx. tauto.
Qed.

Lemma slice_to_sorted (n : Z) (l : list A) :
  StronglySorted (desc key) l -> StronglySorted (desc key) (slice_to n l).
Proof.
  intros Hs. destruct (slice_to_prefix n l) as [rest Hrest].
  rewrite Hrest in Hs. now apply StronglySorted_app_l in Hs.
Qed.

End SortZ.

End PyFacts.

(* ===================================================================== *)
(** ** How a call of get_experts runs                                     *)
(* ===================================================================== *)

Module FacultyAgentFacts.
Import Py PyFacts DataTypes BaseStorage FacultyAgent FacultyAgentSpec.

Lemma school_matches_nonempty {U : Unicode}
    (school_name : string) (cached : list Faculty) :
  (exists f, In f cached
     /\ contains (lower school_name) (lower (last_known_institution f)) = true)
  <-> school_matches school_name cached <> [].
Proof.
  unfold school_matches. split.
  - intros (f & Hin & Hf) Hnil.
    assert (Hf' : In f (filter (fun f0 => contains (lower school_name)
                   (lower (last_known_institution f0))) cached))
      by (apply filter_In; auto).
    rewrite Hnil in Hf'. destruct Hf'.
  - destruct (filter _ cached) as [| f l] eqn:Hfl; [congruence |].
    intros _. exists f.
    assert (Hf : In f (f :: l)) by now left.
    rewrite <- Hfl in Hf. now apply filter_In in Hf.
Qed.

Section Runs.
Context {S H : Type} `{BaseStorage S} (api : OpenAlex H).

Lemma after_calls_nil {A : Type} (o : Outcome A S H) : after_calls [] o = o.
Proof. now destruct o. Qed.

Lemma logged_after_calls {A : Type} (c : Call) (tr : list Call) (o : Outcome A S H) :
  logged c (after_calls tr o) = after_calls (c :: tr) o.
Proof. reflexivity. Qed.

(** The batch loop makes one authors request per batch and hands the
    records verified from all answers, in order, to what follows. *)
Lemma exec_hydrate {A : Type} (school_id school_display : string)
    (potential_map : list (string * option string))
    (k : list Faculty -> Prog A) (todo : list (list string)) :
  forall (verified_list : list Faculty) (st : S) (h : H),
  exists (answers : list (string * list Author)) (h' : H),
    map fst answers = map authors_filter todo
    /\ exec api (hydrate school_id school_display potential_map todo verified_list k) st h
       = after_calls (map call_authors answers)
           (exec api
              (k (verified_list
                  ++ verify_batch school_id school_display potential_map
                       (hydrated answers)))
              st h').
Proof.
  induction todo as [| batch todo IH]; intros verified_list st h.
  - exists [], h. split; [reflexivity |].
    cbn. rewrite app_nil_r. now rewrite after_calls_nil.
  - cbn [hydrate exec].
    destruct (authors api h ("id:" ++ join "|" batch)%string) as [results h1] eqn:Hreq.
    destruct (IH (verified_list
                  ++ verify_batch school_id school_display potential_map results)
                 st h1) as (answers & h' & Hfst & Hexec).
    exists ((authors_filter batch, results) :: answers), h'. split.
    + cbn. now rewrite Hfst.
    + rewrite Hexec, logged_after_calls.
      unfold hydrated, verify_batch. cbn [map concat snd].
      rewrite collect_app, app_assoc. reflexivity.
Qed.

Lemma exec_cache_miss {U : Unicode}
    (st : S) (h : H) (school_name skill_keyword : string)
    (limit : Z) :
  school_matches school_name (search_cache st skill_keyword) = [] ->
  run_shape api st h school_name skill_keyword limit
    (logged (CallSearchCache skill_keyword (search_cache st skill_keyword))
       (exec api (cache_miss school_name skill_keyword limit) st h)).
Proof.
  intros Hmiss. unfold cache_miss. cbn [exec].
  destruct (institutions api h school_name) as [[| inst others] h1] eqn:Hinst.
  - cbn. now apply shape_no_institution.
  - fold (works_filter (result_id inst) skill_keyword). cbn [exec].
    destruct (works api h1 (works_filter (result_id inst) skill_keyword) 50)
      as [found h2] eqn:Hworks.
    destruct (exec_hydrate (result_id inst) (result_display_name inst)
                (build_potential_map (result_id inst) found)
                (fun verified_list =>
                   SaveFaculty (sorted_desc Z.gtb h_index verified_list)
                     (Ret (slice_to limit (sorted_desc Z.gtb h_index verified_list))))
                (batches (dict_keys (build_potential_map (result_id inst) found)))
                [] st h2) as (answers & h3 & Hfst & Hexec).
    rewrite Hexec.
    cbn [exec logged after_calls returned store_after service_after calls app].
    now apply (shape_cache_miss api st h school_name skill_keyword limit
                 inst others h1 found h2 answers h3).
Qed.

(** Every call of [get_experts] has one of the three shapes. *)
Lemma get_experts_shape {U : Unicode}
    (st : S) (h : H) (school_name skill_keyword : string)
    (limit : Z) :
  run_shape api st h school_name skill_keyword limit
    (exec api (get_experts school_name skill_keyword limit) st h).
Proof.
  unfold get_experts. cbn [exec].
  destruct (search_cache st skill_keyword) as [| f cached] eqn:Hcached.
  - rewrite <- Hcached. apply exec_cache_miss. now rewrite Hcached.
  - destruct (school_matches school_name (f :: cached)) as [| m ms] eqn:Hm.
    + rewrite <- Hcached. apply exec_cache_miss. now rewrite Hcached.
    + rewrite <- Hm, <- Hcached. cbn.
      apply shape_cache_hit. rewrite Hcached, Hm. discriminate.
Qed.

End Runs.

End FacultyAgentFacts.

(* ===================================================================== *)
(** ** The candidate map                                                  *)
(* ===================================================================== *)

Module PotentialMapFacts.
Import Py DataTypes FacultyAgent FacultyAgentSpec Fixtures.

Lemma dict_get_set {V : Type} (k k' : string) (v : V) (d : list (string * V)) :
  dict_get k' (dict_set k v d)
  = if String.eqb k' k then Some v else dict_get k' d.
Proof.
  induction d as [| [k0 v0] d IH]; cbn [dict_set dict_get]; [reflexivity |].
  destruct (String.eqb_spec k k0) as [-> | Hk]; cbn [dict_get].
  - destruct (String.eqb k' k0); reflexivity.
  - rewrite IH.
    destruct (String.eqb_spec k' k0) as [-> | Hk0]; [| reflexivity].
    destruct (String.eqb_spec k0 k); [congruence | reflexivity].
Qed.

(** One authorship changes the entry of [a] exactly when it credits [a]. *)
Lemma get_map_authorship (school_id a : string) (work : Work)
    (potential_map : list (string * option string)) (authorship : Authorship) :
  dict_get a (map_authorship school_id work potential_map authorship)
  = if credits school_id a authorship then Some (work_title work)
    else dict_get a potential_map.
Proof.
  unfold map_authorship, credits.
  destruct (any_inst_is school_id (authorship_institutions authorship));
    [| reflexivity].
  destruct (authorship_auth_id authorship) as [auth_id |]; [| reflexivity].
  cbn [opt_eqb andb].
  destruct (str_truthy auth_id) eqn:Htruthy.
  - rewrite dict_get_set.
    destruct (String.eqb_spec a auth_id) as [-> | Hne].
    + now rewrite String.eqb_refl, Htruthy.
    + destruct (String.eqb_spec auth_id a); [congruence | reflexivity].
  - destruct (String.eqb_spec auth_id a) as [<- | Hne]; [| reflexivity].
    now rewrite Htruthy.
Qed.

(** One work changes the entry of [a] exactly when it mentions [a], and
    then to its own title. *)
Lemma get_map_work (school_id a : string) (work : Work) :
  forall potential_map : list (string * option string),
  dict_get a (map_work school_id potential_map work)
  = if mentions school_id a work then Some (work_title work)
    else dict_get a potential_map.
Proof.
  unfold map_work, mentions.
  induction (work_authorships work) as [| authorship rest IH];
    intros potential_map; cbn [fold_left existsb]; [reflexivity |].
  rewrite IH, get_map_authorship.
  destruct (credits school_id a authorship), (existsb (credits school_id a) rest);
    reflexivity.
Qed.

Lemma get_fold_unmentioned (school_id a : string) (later : list Work) :
  (forall w, In w later -> mentions school_id a w = false) ->
  forall potential_map : list (string * option string),
  dict_get a (fold_left (map_work school_id) later potential_map)
  = dict_get a potential_map.
Proof.
  induction later as [| w later IH]; intros Hlater potential_map;
    cbn [fold_left]; [reflexivity |].
  rewrite IH by (intros; apply Hlater; now right).
  rewrite get_map_work, Hlater by now left. reflexivity.
Qed.

End PotentialMapFacts.

(* ===================================================================== *)
(** ** Claims about the candidate map                                     *)
(* ===================================================================== *)

Import Py PyFacts DataTypes BaseStorage FacultyAgent FacultyAgentSpec.
Import FacultyAgentFacts PotentialMapFacts.

(** C1 (as amended).  In the candidate map built on the cache-miss path,
    the title recorded for an author id is the title of the LAST work that
    credits the author at the school: if [work] mentions [a] and no later
    work does, the entry of [a] is the title of [work], whatever came
    before - earlier titles for the same author are overwritten. *)
Theorem potential_map_keeps_last_title
    (school_id a : string) (earlier : list Work) (work : Work) (later : list Work) :
  mentions school_id a work = true ->
  (forall w, In w later -> mentions school_id a w = false) ->
  dict_get a (build_potential_map school_id (earlier ++ work :: later))
  = Some (work_title work).
Proof.
  intros Hwork Hlater. unfold build_potential_map.
  rewrite fold_left_app. cbn [fold_left].
  rewrite get_fold_unmentioned by exact Hlater.
  now rewrite get_map_work, Hwork.
Qed.

(** The theorem at the two works of the fixtures: the later title is kept. *)
Lemma potential_map_keeps_last_title_witness :
  mentions Fixtures.school_id "https://openalex.org/A1" Fixtures.later_paper = true
  /\ dict_get "https://openalex.org/A1"
       (build_potential_map Fixtures.school_id
          ([Fixtures.gnn_paper] ++ Fixtures.later_paper :: []))
     = Some (Some "Later Paper").
Proof.
  split; [reflexivity |].
  apply (potential_map_keeps_last_title Fixtures.school_id
           "https://openalex.org/A1" [Fixtures.gnn_paper] Fixtures.later_paper []).
  - reflexivity.
  - intros w [].
Defined.

(** C1 as stated fails: with two works crediting the same author, the
    title recorded is not the title of the first. *)
Lemma first_seen_title_is_overwritten :
  let found := [Fixtures.gnn_paper; Fixtures.later_paper] in
  let a := "https://openalex.org/A1" in
  mentions Fixtures.school_id a Fixtures.gnn_paper = true
  /\ mentions Fixtures.school_id a Fixtures.later_paper = true
  /\ dict_get a (build_potential_map Fixtures.school_id found)
     <> Some (work_title Fixtures.gnn_paper)
  /\ dict_get a (build_potential_map Fixtures.school_id found)
     = Some (work_title Fixtures.later_paper).
Proof.
  cbv zeta. repeat split; try reflexivity.
  vm_compute. discriminate.
Qed.

(* ===================================================================== *)
(** ** Claims about the cache-hit path                                    *)
(* ===================================================================== *)

(** Case analysis on the shape of a run of [get_experts]. *)
Ltac by_shape api st h school_name skill_keyword limit :=
  let Hshape := fresh "Hshape" in
  let o := fresh "o" in
  let Ho := fresh "Ho" in
  pose proof (get_experts_shape api st h school_name skill_keyword limit) as Hshape;
  remember (exec api (get_experts school_name skill_keyword limit) st h) as o eqn:Ho;
  clear Ho; destruct Hshape.

(** C5.  Cache hit: whenever the store's search for the skill keyword
    returns at least one record whose [last_known_institution] contains the
    school name, case-insensitively, [get_experts] makes no external call
    (its only call is the search of the store, and the remote service is
    left as it was), and what it returns is computed from the cached
    records alone: the matching records, sorted descending by [h_index],
    cut at [limit]. *)
Theorem cache_hit_makes_no_external_call {U : Unicode}
    {S H : Type} `{BaseStorage S} (api : OpenAlex H) (st : S) (h : H)
    (school_name skill_keyword : string) (limit : Z) :
  (exists f, In f (search_cache st skill_keyword)
     /\ contains (lower school_name) (lower (last_known_institution f)) = true) ->
  let o := exec api (get_experts school_name skill_keyword limit) st h in
  Forall (fun c => is_external c = false) (calls o)
  /\ calls o = [CallSearchCache skill_keyword (search_cache st skill_keyword)]
  /\ service_after o = h
  /\ returned o
     = slice_to limit
         (sorted_desc Z.gtb h_index
            (school_matches school_name (search_cache st skill_keyword))).
Proof.
  intros Hhit. apply school_matches_nonempty in Hhit. cbv zeta.
  by_shape api st h school_name skill_keyword limit; try contradiction.
  cbn. repeat split. repeat constructor.
Qed.

Section At_cache_hit_makes_no_external_call_witness.
#[local] Existing Instance Fixtures.latin_text.
(** The theorem on a cached record at "École Polytechnique de Paris", asked
    for "école polytechnique", with a service that would answer if asked:
    the accented capital is lowered like any other letter. *)
Lemma cache_hit_makes_no_external_call_witness :
  let st := Fixtures.storage_returning [Fixtures.cached_polytechnicien] in
  let api := Fixtures.mock_get Fixtures.mock_inst_resp [Fixtures.gnn_paper]
               [Fixtures.dr_graph] in
  let o := exec api (get_experts "école polytechnique" "Graph Neural Networks" 10)
             st 0%nat in
  (exists f, In f (search_cache st "Graph Neural Networks")
     /\ contains (lower "école polytechnique")
                  (lower (last_known_institution f)) = true)
  /\ Forall (fun c => is_external c = false) (calls o)
  /\ service_after o = 0%nat
  /\ returned o = [Fixtures.cached_polytechnicien].
Proof.
  cbv zeta.
  assert (Hhit : exists f,
             In f (search_cache
                     (Fixtures.storage_returning [Fixtures.cached_polytechnicien])
                     "Graph Neural Networks")
             /\ contains (lower "école polytechnique")
                          (lower (last_known_institution f)) = true).
  { exists Fixtures.cached_polytechnicien. split; [now left | reflexivity]. }
  split; [exact Hhit |].
  destruct (cache_hit_makes_no_external_call
              (Fixtures.mock_get Fixtures.mock_inst_resp [Fixtures.gnn_paper]
                 [Fixtures.dr_graph])
              (Fixtures.storage_returning [Fixtures.cached_polytechnicien]) 0%nat
              "école polytechnique" "Graph Neural Networks" 10 Hhit)
    as (Hext & _ & Hsvc & Hret).
  split; [exact Hext | split; [exact Hsvc | exact Hret]].
Defined.
End At_cache_hit_makes_no_external_call_witness.

(** C10.  Frame property of the cache hit: when a cached record matches
    the school, [get_experts] returns without calling [save_faculty] and
    the store is exactly as it was.  [save_faculty] is reached only on the
    cache-miss path: in any run that calls it, no cached record matched
    the school. *)
Theorem cache_hit_leaves_store_unchanged {U : Unicode}
    {S H : Type} `{BaseStorage S} (api : OpenAlex H) (st : S) (h : H)
    (school_name skill_keyword : string) (limit : Z) :
  let cached := search_cache st skill_keyword in
  let o := exec api (get_experts school_name skill_keyword limit) st h in
  ((exists f, In f cached
      /\ contains (lower school_name) (lower (last_known_institution f)) = true) ->
   store_after o = st /\ Forall (fun c => is_save c = false) (calls o))
  /\ ((exists c, In c (calls o) /\ is_save c = true) ->
      school_matches school_name cached = []).
Proof.
  cbv zeta. split.
  - intros Hhit. apply school_matches_nonempty in Hhit.
    by_shape api st h school_name skill_keyword limit; try contradiction.
    cbn. split; [reflexivity | repeat constructor].
  - intros (c & Hc & Hsave).
    by_shape api st h school_name skill_keyword limit; try assumption.
    cbn in Hc. destruct Hc as [<- | []]. discriminate.
Qed.

Section At_cache_hit_leaves_store_unchanged_witness.
#[local] Existing Instance Fixtures.latin_text.
(** The theorem on the same accented hit, with the mock store that records
    the calls of [save_faculty]: none is recorded. *)
Lemma cache_hit_leaves_store_unchanged_witness :
  let st := Fixtures.storage_returning [Fixtures.cached_polytechnicien] in
  let api := Fixtures.mock_get Fixtures.mock_inst_resp [Fixtures.gnn_paper]
               [Fixtures.dr_graph] in
  let o := exec api (get_experts "école polytechnique" "Graph Neural Networks" 10)
             st 0%nat in
  store_after o = st /\ Forall (fun c => is_save c = false) (calls o).
Proof.
  cbv zeta.
  apply (cache_hit_leaves_store_unchanged
           (Fixtures.mock_get Fixtures.mock_inst_resp [Fixtures.gnn_paper]
              [Fixtures.dr_graph])
           (Fixtures.storage_returning [Fixtures.cached_polytechnicien]) 0%nat
           "école polytechnique" "Graph Neural Networks" 10).
  exists Fixtures.cached_polytechnicien. split; [now left | reflexivity].
Defined.
End At_cache_hit_leaves_store_unchanged_witness.

(* ===================================================================== *)
(** ** Claims about the cache-miss path                                   *)
(* ===================================================================== *)

Module VerificationFacts.
Import VerificationSpec.

Lemma opt_eqb_Some (o : option string) (s : string) :
  opt_eqb o (Some s) = true <-> o = Some s.
Proof.
  destruct o as [x |]; cbn; [| split; discriminate].
  rewrite String.eqb_eq. split; congruence.
Qed.

Lemma any_inst_is_true (school_id : string) (insts : list InstitutionRef) :
  any_inst_is school_id insts = true
  <-> exists inst, In inst insts /\ inst_id inst = Some school_id.
Proof.
  unfold any_inst_is. rewrite existsb_exists.
  split; intros (inst & Hin & Hid); exists inst; split; trivial;
    now apply opt_eqb_Some.
Qed.

Lemma is_at_school_true (school_id : string) (author : Author) :
  is_at_school school_id author = true <-> affiliated school_id author.
Proof. apply any_inst_is_true. Qed.

Lemma is_cs_true (author : Author) :
  is_cs author = true <-> in_computer_science author.
Proof.
  unfold is_cs, in_computer_science. rewrite existsb_exists.
  split; intros (t & Hin & Ht); exists t; split; trivial;
    now apply opt_eqb_Some.
Qed.

(** What a verified record says about the author it was built from. *)
Lemma verify_author_Some (school_id school_display : string)
    (potential_map : list (string * option string)) (author : Author) (f : Faculty) :
  verify_author school_id school_display potential_map author = Some f ->
  affiliated school_id author /\ in_computer_science author
  /\ a_id author = Some (id f)
  /\ dict_get (id f) potential_map = Some (top_paper f)
  /\ name f = a_display_name author
  /\ h_index f = author_h_index author
  /\ specialty f = author_specialty author
  /\ last_known_institution f = school_display.
Proof.
  unfold verify_author.
  destruct (a_id author) as [aid |]; [| discriminate].
  destruct (dict_get aid potential_map) as [paper |] eqn:Hget; [| discriminate].
  destruct (is_at_school school_id author) eqn:Hschool; [| discriminate].
  destruct (is_cs author) eqn:Hcs; [| discriminate].
  cbn. intros [= <-]. cbn.
  apply is_at_school_true in Hschool. apply is_cs_true in Hcs.
  repeat split; assumption.
Qed.


End VerificationFacts.

Import VerificationSpec VerificationFacts.

Section At_api_flow_test.
#[local] Existing Instance Fixtures.ascii_text.
(** The two API tests of the suite: Dr. Graph is returned and saved with
    one call of [save_faculty]; the chemist is filtered out. *)
Example api_flow_test :
  let o := exec (Fixtures.mock_get Fixtures.mock_inst_resp [Fixtures.gnn_paper]
                   [Fixtures.dr_graph])
                (get_experts "UCLA" "Graph Neural Networks" 10)
                (Fixtures.storage_returning []) 0%nat in
  returned o = [Fixtures.dr_graph_record]
  /\ Fixtures.save_faculty_calls (store_after o) = [[Fixtures.dr_graph_record]]
  /\ map is_external (calls o) = [false; true; true; true; false].
Proof. repeat split. Qed.
End At_api_flow_test.

Section At_filter_out_non_cs_test.
#[local] Existing Instance Fixtures.ascii_text.
Example filter_out_non_cs_test :
  returned (exec (Fixtures.mock_get Fixtures.mock_inst_resp
                    [Fixtures.molecule_paper] [Fixtures.dr_chemistry])
                 (get_experts "UCLA" "Graph Neural Networks" 10)
                 (Fixtures.storage_returning []) 0%nat)
  = [].
Proof. reflexivity. Qed.
End At_filter_out_non_cs_test.


Section At_verified_records_pass_both_checks_witness.
#[local] Existing Instance Fixtures.ascii_text.
End At_verified_records_pass_both_checks_witness.

(** C4 (as amended).  For every school name, skill keyword and limit that
    is not negative, the list [get_experts] returns is sorted descending
    by [h_index] and has at most [limit] elements.  It is the cut at
    [limit] of the stable descending sort [full] of the records
    [encountered] - the matching cached records on a cache hit, the
    verified records on a cache miss - so records of equal [h_index] keep
    their encounter order.  On a cache miss on which the institution search
    finds an institution, [save_faculty] is called with the whole of [full]
    as the last call before the return.  On a cache miss on which it finds
    none, the empty list is returned and [save_faculty] is not called. *)
Theorem get_experts_sorted_limited_persisted {U : Unicode}
    {S H : Type} `{BaseStorage S} (api : OpenAlex H) (st : S) (h : H)
    (school_name skill_keyword : string) (limit : Z) :
  0 <= limit ->
  let cached := search_cache st skill_keyword in
  let o := exec api (get_experts school_name skill_keyword limit) st h in
  exists encountered : list Faculty,
    let full := sorted_desc Z.gtb h_index encountered in
    returned o = slice_to limit full
    /\ StronglySorted (desc h_index) (returned o)
    /\ Z.of_nat (length (returned o)) <= limit
    /\ (forall hv : Z,
          filter (fun f => h_index f =? hv) full
          = filter (fun f => h_index f =? hv) encountered)
    /\ (school_matches school_name cached <> [] ->
        encountered = school_matches school_name cached)
    /\ (school_matches school_name cached = [] ->
        forall inst others h1,
          institutions api h school_name = (inst :: others, h1) ->
          exists found answers,
            encountered
            = verify_batch (result_id inst) (result_display_name inst)
                (build_potential_map (result_id inst) found) (hydrated answers)
            /\ calls o
               = CallSearchCache skill_keyword cached
                 :: CallInstitutions school_name (inst :: others)
                 :: CallWorks (works_filter (result_id inst) skill_keyword) 50 found
                 :: map call_authors answers ++ [CallSaveFaculty full]
            /\ store_after o = save_faculty st full)
    /\ (school_matches school_name cached = [] ->
        forall h1,
          institutions api h school_name = ([], h1) ->
          returned o = [] /\ store_after o = st
          /\ Forall (fun c => is_save c = false) (calls o)).
Proof.
  intros Hlimit. cbv zeta.
  by_shape api st h school_name skill_keyword limit; cbn [returned calls store_after].
  - exists (school_matches school_name cached).
    split; [reflexivity |].
    split; [apply slice_to_sorted, sorted_desc_sorted |].
    split; [now apply slice_to_length |].
    split; [intros hv; apply sorted_desc_stable |].
    split; [reflexivity |].
    split; intros Hnil; contradiction.
  - exists []. cbn [sorted_desc].
    split; [unfold slice_to; destruct (0 <=? limit); now rewrite firstn_nil |].
    split; [constructor |].
    split; [cbn; lia |].
    split; [reflexivity |].
    split; [intros Hne; contradiction |].
    split.
    + intros _ inst others h1' Hinst. congruence.
    + intros _ h1' _. repeat split. repeat constructor.
  - exists (verify_batch school_id (result_display_name inst) potential_map
              (hydrated answers)).
    split; [reflexivity |].
    split; [apply slice_to_sorted, sorted_desc_sorted |].
    split; [now apply slice_to_length |].
    split; [intros hv; apply sorted_desc_stable |].
    split; [intros Hne; contradiction |].
    split.
    + intros _ inst' others' h1' Hinst.
      assert (Heq : (inst' :: others', h1') = (inst :: others, h1)) by congruence.
      injection Heq as -> -> ->.
      exists found, answers. repeat split.
    + intros _ h1' Hnone. congruence.
Qed.

Section At_get_experts_sorted_limited_persisted_witness.
#[local] Existing Instance Fixtures.ascii_text.
(** The theorem on the API-flow test with [limit = 10]: Dr. Graph is
    returned, and saved by the last call. *)
Lemma get_experts_sorted_limited_persisted_witness :
  let st := Fixtures.storage_returning [] in
  let api := Fixtures.mock_get Fixtures.mock_inst_resp [Fixtures.gnn_paper]
               [Fixtures.dr_graph] in
  let o := exec api (get_experts "UCLA" "Graph Neural Networks" 10) st 0%nat in
  0 <= 10
  /\ returned o = [Fixtures.dr_graph_record]
  /\ Fixtures.save_faculty_calls (store_after o) = [[Fixtures.dr_graph_record]]
  /\ exists encountered : list Faculty,
       returned o = slice_to 10 (sorted_desc Z.gtb h_index encountered)
       /\ StronglySorted (desc h_index) (returned o)
       /\ Z.of_nat (length (returned o)) <= 10.
Proof.
  cbv zeta. split; [lia |]. split; [reflexivity |]. split; [reflexivity |].
  destruct (get_experts_sorted_limited_persisted
              (Fixtures.mock_get Fixtures.mock_inst_resp [Fixtures.gnn_paper]
                 [Fixtures.dr_graph])
              (Fixtures.storage_returning []) 0%nat
              "UCLA" "Graph Neural Networks" 10 ltac:(lia))
    as (encountered & Hret & Hsorted & Hlen & _).
  exists encountered. split; [exact Hret | split; [exact Hsorted | exact Hlen]].
Defined.
End At_get_experts_sorted_limited_persisted_witness.

Section At_negative_limit_and_unresolved_school.
#[local] Existing Instance Fixtures.ascii_text.
(** C4 as stated fails on two counts.  With [limit = -1] the slice
    [[:limit]] drops the last record and returns the others, more than
    [limit]; and on a cache miss on which no institution is found,
    [get_experts] returns without calling [save_faculty]. *)
Lemma negative_limit_and_unresolved_school :
  (let st := Fixtures.storage_returning
               [Fixtures.cached_junior; Fixtures.cached_faculty] in
   let api := Fixtures.mock_get Fixtures.mock_inst_resp [] [] in
   let o := exec api (get_experts "UCLA" "Graph Neural Networks" (-1)) st 0%nat in
   returned o = [Fixtures.cached_faculty]
   /\ ~ Z.of_nat (length (returned o)) <= -1)
  /\ (let st := Fixtures.storage_returning [] in
      let api := Fixtures.mock_get [] [] [] in
      let o := exec api (get_experts "UCLA" "Graph Neural Networks" 10) st 0%nat in
      school_matches "UCLA" (search_cache st "Graph Neural Networks") = []
      /\ returned o = []
      /\ Fixtures.save_faculty_calls (store_after o) = []
      /\ Forall (fun c => is_save c = false) (calls o)).
Proof.
  cbv zeta. split.
  - split; [reflexivity |]. cbn. lia.
  - repeat split. repeat constructor.
Qed.
End At_negative_limit_and_unresolved_school.

(* ===================================================================== *)
(** ** Facts about the ranker                                             *)
(* ===================================================================== *)

Module AnalystFacts.
Import agent2_analyst AnalystSpec.

(** *** Scores are multiples of 1/100, so rounding leaves them as they are *)

Lemma round_half_even_Z (q : Q) (m : Z) :
  (q == inject_Z m)%Q -> round_half_even q = m.
Proof.
  intros Hq. unfold round_half_even.
  assert (Hf : Qfloor q = m) by (rewrite (Qfloor_comp q _ Hq); apply Qfloor_Z).
  rewrite Hf. cbv zeta.
  assert (H0 : (q - inject_Z m == 0)%Q) by (rewrite Hq; ring).
  rewrite (Qcompare_comp _ _ H0 (1 # 2)%Q (1 # 2)%Q (Qeq_refl _)). reflexivity.
Qed.

Lemma hundredths (n c : Z) :
  ((inject_Z n + Qmin (inject_Z c / 100) 2) * 100
   == inject_Z (100 * n + Z.min c 200))%Q.
Proof.
  destruct (Q.min_spec (inject_Z c / 100)%Q 2%Q) as [[Hlt Hmin] | [Hle Hmin]];
    rewrite Hmin.
  - assert (Hc : c < 200).
    { unfold Qlt, Qdiv, Qmult, Qinv, inject_Z in Hlt. cbn in Hlt. lia. }
    rewrite Z.min_l by lia. rewrite inject_Z_plus, inject_Z_mult. field.
  - assert (Hc : 200 <= c).
    { unfold Qle, Qdiv, Qmult, Qinv, inject_Z in Hle. cbn in Hle. lia. }
    rewrite Z.min_r by lia. rewrite inject_Z_plus, inject_Z_mult. field.
Qed.

Lemma round2_exact (n c : Z) :
  (round2 (inject_Z n + Qmin (inject_Z c / 100) 2)
   == inject_Z n + Qmin (inject_Z c / 100) 2)%Q.
Proof.
  unfold round2. rewrite (round_half_even_Z _ _ (hundredths n c)).
  rewrite <- hundredths. field.
Qed.

Lemma Qgtb_true (x : Q) : Qgtb x 0%Q = true <-> (0 < x)%Q.
Proof.
  unfold Qgtb. rewrite negb_true_iff, <- not_true_iff_false, Qle_bool_iff.
  split; [apply Qnot_le_lt | apply Qlt_not_le].
Qed.

(** *** The text *)

Lemma str_append_assoc (a b c : string) :
  ((a ++ b) ++ c = a ++ b ++ c)%string.
Proof. induction a as [| x a IH]; cbn; [reflexivity | now rewrite IH]. Qed.

Lemma text_content_spec {U : Unicode} (paper : Paper) (abstract : string) :
  text_content (paper_title paper) abstract = spec_text paper abstract.
Proof.
  unfold text_content, spec_text. now rewrite !str_append_assoc.
Qed.

(** *** The keyword loop *)

Lemma keyword_loop_from (text : string) (keywords : list string) :
  forall (score : Z) (matches : list string),
  fold_left (keyword_step text) keywords (score, matches)
  = (score + Z.of_nat (length (filter (fun k => contains k text) keywords)),
     matches ++ filter (fun k => contains k text) keywords).
Proof.
  induction keywords as [| k keywords IH]; intros score matches;
    cbn [fold_left filter].
  - cbn. now rewrite Z.add_0_r, app_nil_r.
  - unfold keyword_step at 2. destruct (contains k text).
    + rewrite IH. cbn [length]. rewrite <- app_assoc. f_equal. lia.
    + apply IH.
Qed.

Lemma keyword_loop_filter (keywords : list string) (text : string) :
  keyword_loop keywords text
  = (Z.of_nat (length (filter (fun k => contains k text) keywords)),
     filter (fun k => contains k text) keywords).
Proof. unfold keyword_loop. now rewrite keyword_loop_from. Qed.

Lemma target_keywords_spec {U : Unicode} (interests skills : list string) :
  NoDup (target_keywords interests skills)
  /\ forall k, In k (target_keywords interests skills)
               <-> exists k0, In k0 (interests ++ skills) /\ k = lower k0.
Proof.
  unfold target_keywords. split; [apply NoDup_nodup |].
  intros k. rewrite nodup_In, in_map_iff.
  split; intros (k0 & H1 & H2); exists k0; auto.
Qed.

(** *** One paper *)

Lemma spec_score_unrounded {U : Unicode}
    (interests skills : list string) (paper : Paper)
    (abstract : string) :
  (spec_score interests skills paper abstract
   == inject_Z (Z.of_nat (length (spec_matched interests skills paper abstract)))
      + spec_bonus paper)%Q.
Proof. apply round2_exact. Qed.

(** The loop body appends an entry for exactly the papers that survive
    the filter with a positive score, and the entry is the one of the
    specification. *)
Lemma rank_paper_Some {U : Unicode} (interests skills : list string) (paper : Paper)
    (e : ScoredPaper) :
  rank_paper (target_keywords interests skills) paper = Some e
  <-> exists abstract y,
        survives_filter paper abstract y
        /\ (0 < spec_score interests skills paper abstract)%Q
        /\ e = spec_entry interests skills paper abstract y.
Proof.
  unfold rank_paper, survives_filter.
  destruct (paper_abstract paper) as [abstract |];
    [| split; [discriminate | intros (a & y & (Ha & _) & _); discriminate]].
  destruct (paper_year paper) as [y |];
    [| split; [discriminate | intros (a & y & (_ & _ & Hy & _) & _); discriminate]].
  rewrite text_content_spec, keyword_loop_filter.
  fold (spec_matched interests skills paper abstract).
  change (citation_boost paper) with (spec_bonus paper).
  fold (spec_score interests skills paper abstract).
  fold (spec_entry interests skills paper abstract y).
  destruct abstract as [| ch abstract'] eqn:Habs; cbn [str_truthy negb].
  { split; [discriminate |].
    intros (a & y' & (Ha & Hne & _) & _). congruence. }
  rewrite <- Habs.
  destruct (Z.ltb_spec y 2018) as [Hold | Hrecent].
  { split; [discriminate |].
    intros (a & y' & (_ & _ & Hy & Hge) & _). injection Hy as <-. lia. }
  destruct (Qgtb _ 0%Q) eqn:Hpos.
  - apply Qgtb_true in Hpos. rewrite <- spec_score_unrounded in Hpos.
    split.
    + intros [= <-]. exists abstract, y. subst abstract.
      repeat split; try assumption. discriminate.
    + intros (a & y' & (Ha & _ & Hy & _) & _ & ->).
      injection Ha as <-. injection Hy as <-. reflexivity.
  - split; [discriminate |].
    intros (a & y' & (Ha & _ & Hy & _) & Hscore & _).
    injection Ha as <-. injection Hy as <-.
    rewrite spec_score_unrounded in Hscore. apply Qgtb_true in Hscore.
    congruence.
Qed.

Lemma in_rank_papers {U : Unicode}
    (papers : list Paper) (interests skills : list string)
    (e : ScoredPaper) :
  In e (_rank_papers papers interests skills)
  <-> exists paper, In paper papers
        /\ rank_paper (target_keywords interests skills) paper = Some e.
Proof.
  unfold _rank_papers. cbv zeta. rewrite sorted_desc_In. apply in_collect.
Qed.

End AnalystFacts.

(* ===================================================================== *)
(** ** Claims about the ranker                                            *)
(* ===================================================================== *)

Import agent2_analyst AnalystSpec AnalystFacts.

Section At_rank_mock_papers.
#[local] Existing Instance Fixtures.ascii_text.
(** The ranking of the test suite: the 2010 paper is gone, the paper that
    matches all four keywords leads with 4 + 50/100, the biology paper
    stays on its citations alone. *)
Example rank_mock_papers :
  map (fun e => (title e, year e, relevance_score e, matched_keywords e))
      (_rank_papers Fixtures.mock_papers ["Deep Learning"; "NLP"]
         ["Python"; "Transformers"])
  = [("Deep Learning with Transformers", 2023, (450 # 100)%Q,
      ["deep learning"; "nlp"; "python"; "transformers"]);
     ("Irrelevant Biology Study", 2022, (5 # 100)%Q, [])].
Proof. reflexivity. Qed.
End At_rank_mock_papers.

Section At_rank_accented_keyword.
#[local] Existing Instance Fixtures.latin_text.
(** An accented keyword in capitals matches the lowercase title. *)
Example rank_accented_keyword :
  map (fun e => (title e, relevance_score e, matched_keywords e))
      (_rank_papers [Fixtures.paper_ecole] ["ÉCOLE"] [])
  = [("école normale", (100 # 100)%Q, ["école"])].
Proof. reflexivity. Qed.
End At_rank_accented_keyword.

(** C7.  When the papers request fails with a transport or HTTP error -
    [requests.get] raises, or the answer has a 4xx or 5xx status so that
    [raise_for_status] raises - [run] does not raise: it returns exactly
    the object with the single entry error = "No papers found or API
    error.".  An endpoint that answers with zero papers gives the very
    same result. *)
Theorem transport_failure_gives_error_object {U : Unicode}
    (requests_get : string -> Z -> Response) (now_isoformat : string)
    (input_data : InputData) :
  request_fails
    (requests_get (base_url ++ "/author/" ++ authorId input_data ++ "/papers")%string
       50) ->
  run requests_get now_isoformat input_data
  = ErrorResult "No papers found or API error."
  /\ forall (status_code : Z) (empty_get : string -> Z -> Response),
       raise_for_status_raises status_code = false ->
       (forall endpoint limit,
          empty_get endpoint limit = Answers status_code {| data := Some [] |}) ->
       run empty_get now_isoformat input_data
       = run requests_get now_isoformat input_data.
Proof.
  intros Hfails.
  assert (Hrun : run requests_get now_isoformat input_data
                 = ErrorResult "No papers found or API error.").
  { unfold run, _fetch_papers.
    destruct (requests_get _ 50) as [| status_code json]; [reflexivity |].
    cbn in Hfails. now rewrite Hfails. }
  split; [exact Hrun |].
  intros status_code empty_get Hok Hempty. rewrite Hrun.
  unfold run, _fetch_papers. rewrite Hempty, Hok. reflexivity.
Qed.

Section At_run_on_server_error.
#[local] Existing Instance Fixtures.ascii_text.
Example run_on_server_error :
  run Fixtures.get_server_error "2024-01-01T00:00:00" Fixtures.input_data
  = ErrorResult "No papers found or API error.".
Proof. reflexivity. Qed.
End At_run_on_server_error.

Section At_transport_failure_gives_error_object_witness.
#[local] Existing Instance Fixtures.ascii_text.
(** The theorem on the failure test: the request raises. *)
Lemma transport_failure_gives_error_object_witness :
  request_fails
    (Fixtures.get_raising
       (base_url ++ "/author/" ++ authorId Fixtures.input_data ++ "/papers")%string 50)
  /\ run Fixtures.get_raising "2024-01-01T00:00:00" Fixtures.input_data
     = ErrorResult "No papers found or API error.".
Proof.
  split; [exact I |].
  apply (transport_failure_gives_error_object Fixtures.get_raising
           "2024-01-01T00:00:00" Fixtures.input_data).
  exact I.
Defined.
End At_transport_failure_gives_error_object_witness.

(** C8.  Ranker filter.  Every entry [_rank_papers] returns comes from a
    fetched paper that has a non-empty abstract and a year, the year being
    2018 or later (and the entry carries that year).  A paper without an
    abstract, with an empty abstract, without a year or with a year before
    2018 is excluded: the ranking is the same as without it. *)
Theorem ranked_papers_pass_filter {U : Unicode}
    (papers : list Paper) (interests skills : list string) :
  let ranked := _rank_papers papers interests skills in
  (forall e, In e ranked ->
     exists paper abstract,
       In paper papers
       /\ paper_abstract paper = Some abstract /\ abstract <> ""
       /\ paper_year paper = Some (year e) /\ 2018 <= year e
       /\ title e = paper_title paper /\ url e = paper_url paper)
  /\ (forall before paper after,
        papers = before ++ paper :: after ->
        paper_abstract paper = None \/ paper_abstract paper = Some ""
        \/ paper_year paper = None
        \/ (exists y, paper_year paper = Some y /\ y < 2018) ->
        ranked = _rank_papers (before ++ after) interests skills).
Proof.
  cbv zeta. split.
  - intros e He. apply in_rank_papers in He.
    destruct He as (paper & Hin & Hrank).
    apply rank_paper_Some in Hrank.
    destruct Hrank as (abstract & y & (Ha & Hne & Hy & Hge) & _ & ->).
    exists paper, abstract. cbn. repeat split; assumption.
  - intros before paper after -> Hdrop.
    unfold _rank_papers. cbv zeta. f_equal. apply collect_skip.
    destruct (rank_paper (target_keywords interests skills) paper) as [e |] eqn:Hrank;
      [| reflexivity].
    apply rank_paper_Some in Hrank.
    destruct Hrank as (abstract & y & (Ha & Hne & Hy & Hge) & _).
    destruct Hdrop as [Hd | [Hd | [Hd | (y' & Hd & Hlt)]]]; try congruence.
    rewrite Hy in Hd. injection Hd as <-. lia.
Qed.

(** The same holds of what [run] recommends, a prefix of the ranking. *)
Corollary recommended_papers_pass_filter {U : Unicode}
    (requests_get : string -> Z -> Response) (now_isoformat : string)
    (input_data : InputData) (payload : OutputPayload) (e : ScoredPaper) :
  run requests_get now_isoformat input_data = Payload payload ->
  In e (recommended_papers payload) ->
  exists paper abstract,
    In paper (_fetch_papers requests_get (authorId input_data) 50)
    /\ paper_abstract paper = Some abstract /\ abstract <> ""
    /\ paper_year paper = Some (year e) /\ 2018 <= year e.
Proof.
  unfold run.
  destruct (_fetch_papers requests_get (authorId input_data) 50) as [| p raw];
    [discriminate |].
  intros [= <-]. cbn [recommended_papers]. intros He.
  apply slice_to_incl, in_rank_papers in He.
  destruct He as (paper & Hin & Hrank). apply rank_paper_Some in Hrank.
  destruct Hrank as (abstract & y & (Ha & Hne & Hy & Hge) & _ & ->).
  exists paper, abstract. cbn. repeat split; assumption.
Qed.

Section At_ranked_papers_pass_filter_witness.
#[local] Existing Instance Fixtures.ascii_text.
(** The theorem on the test suite's papers: the leading entry comes from
    the 2023 paper. *)
Lemma ranked_papers_pass_filter_witness :
  exists paper abstract,
    In paper Fixtures.mock_papers
    /\ paper_abstract paper = Some abstract /\ abstract <> ""
    /\ paper_year paper = Some 2023 /\ 2018 <= 2023
    /\ "Deep Learning with Transformers" = paper_title paper
    /\ "http://paper1.com" = paper_url paper.
Proof.
  apply (proj1 (ranked_papers_pass_filter Fixtures.mock_papers
                  ["Deep Learning"; "NLP"] ["Python"; "Transformers"])
               (spec_entry ["Deep Learning"; "NLP"] ["Python"; "Transformers"]
                  Fixtures.paper1
                  "A study on NLP using Python and Transformers." 2023)).
  vm_compute. now left.
Defined.
End At_ranked_papers_pass_filter_witness.

(** C9.  Ranker scoring.  The keywords are the distinct lowercased
    interests and skills.  Every entry of the output is the entry of a
    paper that survives the filter: its relevance score is the number of
    keywords that occur in the lowercased text (title, title, abstract)
    plus min(citationCount / 100, 2), rounded to two decimals - rounding
    leaves that number unchanged -, its matched keywords are exactly the
    keywords that occur, and the score is positive.  A surviving paper has
    its entry in the output if and only if that score is greater than 0. *)
Theorem relevance_score_counts_keywords_plus_bonus {U : Unicode}
    (papers : list Paper) (interests skills : list string) :
  let keywords := target_keywords interests skills in
  let ranked := _rank_papers papers interests skills in
  (NoDup keywords
   /\ forall k, In k keywords
                <-> exists k0, In k0 (interests ++ skills) /\ k = lower k0)
  /\ (forall e, In e ranked ->
        exists paper abstract y,
          In paper papers /\ survives_filter paper abstract y
          /\ e = spec_entry interests skills paper abstract y
          /\ (0 < relevance_score e)%Q)
  /\ (forall paper abstract y,
        In paper papers -> survives_filter paper abstract y ->
        (In (spec_entry interests skills paper abstract y) ranked
         <-> (0 < spec_score interests skills paper abstract)%Q)
        /\ (spec_score interests skills paper abstract
            == inject_Z (Z.of_nat
                 (length (spec_matched interests skills paper abstract)))
               + spec_bonus paper)%Q)
  /\ (forall text,
        keyword_loop keywords text
        = (Z.of_nat (length (filter (fun k => contains k text) keywords)),
           filter (fun k => contains k text) keywords)).
Proof.
  cbv zeta. split; [apply target_keywords_spec |].
  split; [| split].
  - intros e He. apply in_rank_papers in He.
    destruct He as (paper & Hin & Hrank).
    apply rank_paper_Some in Hrank.
    destruct Hrank as (abstract & y & Hsurvives & Hpos & ->).
    exists paper, abstract, y.
    split; [exact Hin | split; [exact Hsurvives | split; [reflexivity | exact Hpos]]].
  - intros paper abstract y Hin Hsurvives.
    split; [| apply spec_score_unrounded].
    rewrite in_rank_papers. split.
    + intros (paper' & _ & Hrank). apply rank_paper_Some in Hrank.
      destruct Hrank as (abstract' & y' & _ & Hpos & Heq).
      apply (f_equal relevance_score) in Heq. cbn in Heq.
      now rewrite Heq.
    + intros Hpos. exists paper. split; [exact Hin |].
      apply rank_paper_Some. now exists abstract, y.
  - intros text. apply keyword_loop_filter.
Qed.

(** C2 (as amended).  When the fetch returns at least one paper, [run]
    returns the payload with the professor name (or "Unknown"), the
    timestamp and the echoed student profile, and its recommended papers
    are the first three of the ranked, scored papers (all of them when three
    or fewer were ranked): the selection of the top three is made by [run]
    itself, and the papers ranked fourth and lower are left out. *)
Theorem run_returns_top_three {U : Unicode}
    (requests_get : string -> Z -> Response) (now_isoformat : string)
    (input_data : InputData) :
  _fetch_papers requests_get (authorId input_data) 50 <> [] ->
  let scored_papers :=
    _rank_papers (_fetch_papers requests_get (authorId input_data) 50)
      (student_interests input_data) (student_skills input_data) in
  run requests_get now_isoformat input_data
  = Payload
      {| professor_name :=
           match input_professor_name input_data with
           | Some n => n
           | None => "Unknown"
           end;
         analysis_timestamp := now_isoformat;
         student_profile_used :=
           {| skills := student_skills input_data;
              interests := student_interests input_data |};
         recommended_papers := firstn 3 scored_papers |}
  /\ (length (firstn 3 scored_papers) <= 3)%nat
  /\ ((length scored_papers <= 3)%nat -> firstn 3 scored_papers = scored_papers)
  /\ exists left_out, scored_papers = firstn 3 scored_papers ++ left_out.
Proof.
  intros Hfetched. cbv zeta. split; [| split; [| split]].
  - unfold run.
    destruct (_fetch_papers requests_get (authorId input_data) 50) as [| p raw];
      [contradiction | reflexivity].
  - apply firstn_le_length.
  - apply firstn_all2.
  - eexists. symmetry. apply firstn_skipn.
Qed.

Section At_run_returns_top_three_witness.
#[local] Existing Instance Fixtures.ascii_text.
(** The theorem on the success test: two papers are ranked, both are
    recommended. *)
Lemma run_returns_top_three_witness :
  _fetch_papers (Fixtures.get_returning Fixtures.mock_papers)
    (authorId Fixtures.input_data) 50 <> []
  /\ exists payload,
       run (Fixtures.get_returning Fixtures.mock_papers) "2024-01-01T00:00:00"
         Fixtures.input_data = Payload payload
       /\ professor_name payload = "Dr. Test"
       /\ length (recommended_papers payload) = 2%nat.
Proof.
  assert (Hfetched : _fetch_papers (Fixtures.get_returning Fixtures.mock_papers)
                       (authorId Fixtures.input_data) 50 <> [])
    by (vm_compute; discriminate).
  split; [exact Hfetched |].
  destruct (run_returns_top_three (Fixtures.get_returning Fixtures.mock_papers)
              "2024-01-01T00:00:00" Fixtures.input_data Hfetched) as (Hrun & _).
  eexists. split; [exact Hrun |]. split; reflexivity.
Defined.
End At_run_returns_top_three_witness.

Section At_run_leaves_out_the_fourth_ranked_paper.
#[local] Existing Instance Fixtures.ascii_text.
(** C2 as stated fails: with four papers that pass the filter and the
    threshold, [run] returns three of them, not all. *)
Lemma run_leaves_out_the_fourth_ranked_paper :
  let papers := [Fixtures.paper1; Fixtures.paper3; Fixtures.paper4; Fixtures.paper5] in
  let scored_papers :=
    _rank_papers papers (student_interests Fixtures.input_data)
      (student_skills Fixtures.input_data) in
  map title scored_papers
  = ["Deep Learning with Transformers"; "Transformers at Scale";
     "Python for NLP"; "Irrelevant Biology Study"]
  /\ exists payload,
       run (Fixtures.get_returning papers) "2024-01-01T00:00:00" Fixtures.input_data
       = Payload payload
       /\ map title (recommended_papers payload)
          = ["Deep Learning with Transformers"; "Transformers at Scale";
             "Python for NLP"]
       /\ recommended_papers payload <> scored_papers.
Proof.
  cbv zeta. split; [reflexivity |].
  eexists. split; [reflexivity |]. split; [reflexivity |].
  intros Heq. apply (f_equal (@length ScoredPaper)) in Heq.
  vm_compute in Heq. discriminate.
Qed.
End At_run_leaves_out_the_fourth_ranked_paper.

(* ##################################################################### *)
(** * Further properties of the code                                      *)
(* ##################################################################### *)

(* ===================================================================== *)
(** ** Batches of candidate ids                                           *)
(* ===================================================================== *)

Module BatchFacts.
Import TraceSpec.

Lemma firstn_plus {A : Type} (n m : nat) (l : list A) :
  firstn (n + m) l = firstn n l ++ firstn m (skipn n l).
Proof.
  revert l. induction n as [| n IH]; intros l; [reflexivity |].
  destruct l as [| x l]; cbn.
  - now rewrite firstn_nil.
  - now rewrite IH.
Qed.

Lemma slice_50 {A : Type} (i : nat) (l : list A) :
  slice i (i + 50) l = firstn 50 (skipn i l).
Proof. unfold slice. f_equal. lia. Qed.

Lemma concat_chunks {A : Type} (l : list A) (n : nat) :
  concat (map (fun i => slice i (i + 50) l) (map (fun j => j * 50)%nat (seq 0 n)))
  = firstn (n * 50) l.
Proof.
  induction n as [| n IH]; [reflexivity |].
  rewrite seq_S, !map_app, concat_app, IH. cbn [map concat plus].
  rewrite app_nil_r, slice_50.
  replace (S n * 50)%nat with (n * 50 + 50)%nat by lia.
  now rewrite firstn_plus.
Qed.

Lemma rounds_cover (n : nat) : (n <= (n + 50 - 1) / 50 * 50)%nat.
Proof.
  pose proof (Nat.div_mod_eq (n + 50 - 1) 50) as Hdiv.
  pose proof (Nat.mod_upper_bound (n + 50 - 1) 50 ltac:(lia)) as Hmod.
  lia.
Qed.

Lemma rounds_start_inside (n j : nat) :
  (j < (n + 50 - 1) / 50)%nat -> (j * 50 < n)%nat.
Proof.
  intros Hj.
  pose proof (Nat.div_mod_eq (n + 50 - 1) 50) as Hdiv.
  pose proof (Nat.mod_upper_bound (n + 50 - 1) 50 ltac:(lia)) as Hmod.
  nia.
Qed.

(** The batches are the ids, in order, each id once. *)
Lemma concat_batches (auth_ids : list string) :
  concat (batches auth_ids) = auth_ids.
Proof.
  unfold batches, range_step. rewrite concat_chunks.
  apply firstn_all2, rounds_cover.
Qed.

(** A batch holds between 1 and 50 ids. *)
Lemma batches_sizes (auth_ids : list string) :
  Forall (fun batch => (1 <= length batch <= 50)%nat) (batches auth_ids).
Proof.
  unfold batches, range_step. apply Forall_forall. intros batch Hb.
  apply in_map_iff in Hb. destruct Hb as (i & <- & Hi).
  apply in_map_iff in Hi. destruct Hi as (j & <- & Hj).
  apply in_seq in Hj. rewrite slice_50, length_firstn, length_skipn.
  pose proof (rounds_start_inside (length auth_ids) j ltac:(lia)). lia.
Qed.

Lemma authors_requests_answers (answers : list (string * list Author)) (tl : list Call) :
  authors_requests (map call_authors answers ++ tl)
  = map fst answers ++ authors_requests tl.
Proof.
  unfold authors_requests. rewrite collect_app. f_equal.
  induction answers as [| [request results] answers IH]; cbn; [reflexivity |].
  now rewrite IH.
Qed.

End BatchFacts.

Import TraceSpec BatchFacts.

(** X1.  A cache miss on which the institution search finds nothing ends
    there: the run consists of the search of the store and the one
    institutions request, no works or authors request is made, nothing is
    saved, and the empty list is returned.  This holds whether the store
    returned nothing or only records of other schools. *)
Theorem unresolved_school_stops_the_pipeline {U : Unicode}
    {S H : Type} `{BaseStorage S} (api : OpenAlex H) (st : S) (h : H)
    (school_name skill_keyword : string) (limit : Z) :
  school_matches school_name (search_cache st skill_keyword) = [] ->
  fst (institutions api h school_name) = [] ->
  let o := exec api (get_experts school_name skill_keyword limit) st h in
  returned o = []
  /\ calls o = [CallSearchCache skill_keyword (search_cache st skill_keyword);
                CallInstitutions school_name []]
  /\ store_after o = st
  /\ service_after o = snd (institutions api h school_name).
Proof.
  intros Hmiss Hnone. cbv zeta.
  by_shape api st h school_name skill_keyword limit; try contradiction.
  - cbn. match goal with Hi : institutions _ _ _ = _ |- _ => rewrite Hi end.
    repeat split.
  - match goal with Hi : institutions _ _ _ = _ |- _ => rewrite Hi in Hnone end.
    discriminate.
Qed.

Section At_unresolved_school_stops_the_pipeline_witness.
#[local] Existing Instance Fixtures.ascii_text.
Lemma unresolved_school_stops_the_pipeline_witness :
  let st := Fixtures.storage_returning [Fixtures.cached_faculty] in
  let api := Fixtures.mock_get [] [Fixtures.gnn_paper] [Fixtures.dr_graph] in
  let o := exec api (get_experts "MIT" "Graph Neural Networks" 10) st 0%nat in
  returned o = []
  /\ calls o = [CallSearchCache "Graph Neural Networks" [Fixtures.cached_faculty];
                CallInstitutions "MIT" []]
  /\ store_after o = st
  /\ service_after o = 1%nat.
Proof.
  cbv zeta.
  assert (Hmiss : school_matches "MIT"
                    (search_cache (Fixtures.storage_returning [Fixtures.cached_faculty])
                       "Graph Neural Networks") = []) by reflexivity.
  assert (Hnone : fst (institutions
                         (Fixtures.mock_get [] [Fixtures.gnn_paper] [Fixtures.dr_graph])
                         0%nat "MIT") = []) by reflexivity.
  exact (unresolved_school_stops_the_pipeline
           (Fixtures.mock_get [] [Fixtures.gnn_paper] [Fixtures.dr_graph])
           (Fixtures.storage_returning [Fixtures.cached_faculty]) 0%nat
           "MIT" "Graph Neural Networks" 10 Hmiss Hnone).
Defined.
End At_unresolved_school_stops_the_pipeline_witness.

(** X2.  Hydration in batches.  On a cache miss with a resolved
    institution, the authors requests of the run are exactly one per batch
    of candidate ids, in order, each with the filter "id:" followed by the
    ids of the batch joined by "|"; the batches hold between 1 and 50 ids
    and together are the candidate ids in key order, each id once. *)
Theorem authors_requested_in_batches_of_50 {U : Unicode}
    {S H : Type} `{BaseStorage S} (api : OpenAlex H) (st : S) (h : H)
    (school_name skill_keyword : string) (limit : Z)
    (inst : InstitutionResult) (others : list InstitutionResult) :
  school_matches school_name (search_cache st skill_keyword) = [] ->
  fst (institutions api h school_name) = inst :: others ->
  let o := exec api (get_experts school_name skill_keyword limit) st h in
  exists found,
    let auth_ids := dict_keys (build_potential_map (result_id inst) found) in
    In (CallWorks (works_filter (result_id inst) skill_keyword) 50 found) (calls o)
    /\ authors_requests (calls o) = map authors_filter (batches auth_ids)
    /\ concat (batches auth_ids) = auth_ids
    /\ Forall (fun batch => (1 <= length batch <= 50)%nat) (batches auth_ids).
Proof.
  intros Hmiss Hinst. cbv zeta.
  by_shape api st h school_name skill_keyword limit; try contradiction.
  - match goal with Hi : institutions _ _ _ = _ |- _ => rewrite Hi in Hinst end.
    discriminate.
  - match goal with Hi : institutions _ _ _ = _ |- _ => rewrite Hi in Hinst end.
    cbn in Hinst. injection Hinst as <- <-.
    exists found. cbv zeta. cbn [calls].
    split; [right; right; now left |].
    split; [| split; [apply concat_batches | apply batches_sizes]].
    change (authors_requests
              (CallSearchCache skill_keyword cached
               :: CallInstitutions school_name (inst0 :: others0)
               :: CallWorks (works_filter school_id skill_keyword) 50 found
               :: map call_authors answers ++ [CallSaveFaculty final_results]))
      with (authors_requests
              (map call_authors answers ++ [CallSaveFaculty final_results])).
    rewrite authors_requests_answers. cbn. rewrite app_nil_r. assumption.
Qed.

Section At_authors_requested_in_batches_of_50_witness.
#[local] Existing Instance Fixtures.ascii_text.
Lemma authors_requested_in_batches_of_50_witness :
  let st := Fixtures.storage_returning [] in
  let api := Fixtures.mock_get Fixtures.mock_inst_resp [Fixtures.gnn_paper]
               [Fixtures.dr_graph] in
  let o := exec api (get_experts "UCLA" "Graph Neural Networks" 10) st 0%nat in
  exists found,
    let auth_ids := dict_keys (build_potential_map Fixtures.school_id found) in
    In (CallWorks (works_filter Fixtures.school_id "Graph Neural Networks") 50 found)
       (calls o)
    /\ authors_requests (calls o) = map authors_filter (batches auth_ids)
    /\ concat (batches auth_ids) = auth_ids
    /\ Forall (fun batch => (1 <= length batch <= 50)%nat) (batches auth_ids).
Proof.
  cbv zeta.
  assert (Hmiss : school_matches "UCLA"
                    (search_cache (Fixtures.storage_returning [])
                       "Graph Neural Networks") = []) by reflexivity.
  assert (Hinst : fst (institutions
                         (Fixtures.mock_get Fixtures.mock_inst_resp
                            [Fixtures.gnn_paper] [Fixtures.dr_graph])
                         0%nat "UCLA")
                  = {| result_id := Fixtures.school_id;
                       result_display_name := "UCLA" |} :: []) by reflexivity.
  exact (authors_requested_in_batches_of_50
           (Fixtures.mock_get Fixtures.mock_inst_resp [Fixtures.gnn_paper]
              [Fixtures.dr_graph])
           (Fixtures.storage_returning []) 0%nat
           "UCLA" "Graph Neural Networks" 10 _ _ Hmiss Hinst).
Defined.
End At_authors_requested_in_batches_of_50_witness.

(* ===================================================================== *)
(** ** Candidates and the records built from them                         *)
(* ===================================================================== *)

Module CandidateFacts.

Lemma str_truthy_true (s : string) : str_truthy s = true <-> s <> "".
Proof. destruct s; cbn; split; congruence. Qed.

Lemma in_dict_keys {V : Type} (k : string) (d : list (string * V)) :
  In k (dict_keys d) <-> dict_get k d <> None.
Proof.
  unfold dict_keys. induction d as [| [k0 v0] d IH]; cbn; [tauto |].
  destruct (String.eqb_spec k k0) as [-> | Hne].
  - split; [discriminate | auto].
  - rewrite <- IH. split; [intros [Heq | Hin]; [congruence | exact Hin] | auto].
Qed.

Lemma dict_set_keys_NoDup {V : Type} (k : string) (v : V) (d : list (string * V)) :
  NoDup (dict_keys d) -> NoDup (dict_keys (dict_set k v d)).
Proof.
  induction d as [| [k0 v0] d IH]; intros Hnd.
  - cbn. constructor; [intros [] | constructor].
  - cbn [dict_set]. destruct (String.eqb_spec k k0) as [-> | Hne]; [exact Hnd |].
    change (NoDup (k0 :: dict_keys (dict_set k v d))).
    change (NoDup (k0 :: dict_keys d)) in Hnd.
    apply NoDup_cons_iff in Hnd. destruct Hnd as [Hk0 Hnd].
    constructor; [| now apply IH].
    rewrite in_dict_keys, dict_get_set.
    destruct (String.eqb_spec k0 k); [congruence |].
    now rewrite <- in_dict_keys.
Qed.

Lemma map_authorship_keys_NoDup (school_id : string) (work : Work)
    (potential_map : list (string * option string)) (authorship : Authorship) :
  NoDup (dict_keys potential_map) ->
  NoDup (dict_keys (map_authorship school_id work potential_map authorship)).
Proof.
  intros Hnd. unfold map_authorship.
  destruct (any_inst_is _ _); [| exact Hnd].
  destruct (authorship_auth_id authorship) as [auth_id |]; [| exact Hnd].
  destruct (str_truthy auth_id); [| exact Hnd].
  now apply dict_set_keys_NoDup.
Qed.

Lemma build_keys_NoDup (school_id : string) (found : list Work) :
  NoDup (dict_keys (build_potential_map school_id found)).
Proof.
  unfold build_potential_map.
  assert (Hgen : forall pm : list (string * option string),
             NoDup (dict_keys pm) ->
             NoDup (dict_keys (fold_left (map_work school_id) found pm))).
  { induction found as [| w found IH]; intros pm Hpm; [exact Hpm |].
    cbn [fold_left]. apply IH. unfold map_work.
    revert pm Hpm.
    induction (work_authorships w) as [| authorship rest IHa]; intros pm Hpm;
      [exact Hpm |].
    cbn [fold_left]. apply IHa. now apply map_authorship_keys_NoDup. }
  apply Hgen. constructor.
Qed.

(** [mentions], spelled out. *)
Lemma mentions_true (school_id a : string) (work : Work) :
  mentions school_id a work = true
  <-> a <> ""
      /\ exists authorship inst,
           In authorship (work_authorships work)
           /\ authorship_auth_id authorship = Some a
           /\ In inst (authorship_institutions authorship)
           /\ inst_id inst = Some school_id.
Proof.
  unfold mentions, credits. rewrite existsb_exists. split.
  - intros (authorship & Hin & Hc).
    apply andb_true_iff in Hc. destruct Hc as [Hc Ha].
    apply andb_true_iff in Hc. destruct Hc as [Hinst Hid].
    apply str_truthy_true in Ha. apply opt_eqb_Some in Hid.
    apply any_inst_is_true in Hinst. destruct Hinst as (inst & Hi & Hii).
    split; [exact Ha |]. now exists authorship, inst.
  - intros (Ha & authorship & inst & Hin & Hid & Hi & Hii).
    exists authorship. split; [exact Hin |].
    apply andb_true_iff. split; [apply andb_true_iff; split |].
    + apply any_inst_is_true. now exists inst.
    + now apply opt_eqb_Some.
    + now apply str_truthy_true.
Qed.

Lemma get_fold_works (school_id a : string) (found : list Work) :
  forall potential_map : list (string * option string),
  dict_get a (fold_left (map_work school_id) found potential_map) <> None
  <-> dict_get a potential_map <> None
      \/ exists w, In w found /\ mentions school_id a w = true.
Proof.
  induction found as [| w found IH]; intros potential_map; cbn [fold_left].
  - split; [auto | intros [Hg | (w & [] & _)]; exact Hg].
  - rewrite IH, get_map_work. destruct (mentions school_id a w) eqn:Hm.
    + split; intros _; [right; exists w; split; [now left | exact Hm]
                       | left; discriminate].
    + split.
      * intros [Hg | (w' & Hin & Hw')]; [now left |].
        right. exists w'. split; [now right | exact Hw'].
      * intros [Hg | (w' & [<- | Hin] & Hw')]; [now left | congruence |].
        right. now exists w'.
Qed.

(** A recorded title is the title of the last work that mentions the
    author. *)
Lemma get_build_last (school_id a : string) (t : option string) (found : list Work) :
  dict_get a (build_potential_map school_id found) = Some t ->
  exists earlier work later,
    found = earlier ++ work :: later
    /\ mentions school_id a work = true
    /\ (forall w, In w later -> mentions school_id a w = false)
    /\ t = work_title work.
Proof.
  unfold build_potential_map.
  induction found as [| w found IH] using rev_ind; [discriminate |].
  rewrite fold_left_app. cbn [fold_left]. rewrite get_map_work.
  destruct (mentions school_id a w) eqn:Hm.
  - intros [= <-]. exists found, w, []. repeat split; trivial. intros w' [].
  - intros Hget. destruct (IH Hget) as (earlier & work & later & -> & Hw & Hlater & ->).
    exists earlier, work, (later ++ [w]). repeat split; trivial.
    + now rewrite <- app_assoc.
    + intros w' Hw'. apply in_app_or in Hw'.
      destruct Hw' as [Hw' | [<- | []]]; [now apply Hlater | exact Hm].
Qed.

Section MissOrigin.
Context {S H : Type} `{BaseStorage S} (api : OpenAlex H).

(** Where a record returned on the cache-miss path comes from. *)
Lemma miss_record_origin {U : Unicode}
    (st : S) (h : H) (school_name skill_keyword : string)
    (limit : Z) (f : Faculty) :
  school_matches school_name (search_cache st skill_keyword) = [] ->
  In f (returned (exec api (get_experts school_name skill_keyword limit) st h)) ->
  exists inst others found request results author,
    let o := exec api (get_experts school_name skill_keyword limit) st h in
    In (CallInstitutions school_name (inst :: others)) (calls o)
    /\ In (CallWorks (works_filter (result_id inst) skill_keyword) 50 found) (calls o)
    /\ In (CallAuthors request results) (calls o)
    /\ In author results
    /\ verify_author (result_id inst) (result_display_name inst)
         (build_potential_map (result_id inst) found) author = Some f.
Proof.
  intros Hmiss. cbv zeta.
  by_shape api st h school_name skill_keyword limit; try contradiction;
    cbn [returned calls]; try (intros []; fail).
  intros Hf. apply slice_to_incl, sorted_desc_In in Hf.
  apply in_collect in Hf. destruct Hf as (author & Hauthor & Hverify).
  unfold hydrated in Hauthor. apply in_concat in Hauthor.
  destruct Hauthor as (results & Hresults & Hin).
  apply in_map_iff in Hresults. destruct Hresults as ([request r] & Hr & Hanswer).
  cbn in Hr. subst r.
  exists inst, others, found, request, results, author.
  split; [right; now left |].
  split; [right; right; now left |].
  split; [| split; assumption].
  do 3 right. apply in_or_app. left.
  apply in_map_iff. now exists (request, results).
Qed.

End MissOrigin.

End CandidateFacts.

Import CandidateFacts.

(** X3.  The candidates.  The keys of the candidate map are exactly the
    non-empty author ids that some found work credits through an
    authorship listing the resolved institution - an author of the same
    work affiliated elsewhere is no candidate - and no id is a key twice. *)
Theorem candidates_are_the_credited_authors
    (school_id : string) (found : list Work) :
  let auth_ids := dict_keys (build_potential_map school_id found) in
  NoDup auth_ids
  /\ forall a,
       In a auth_ids
       <-> a <> ""
           /\ exists work authorship inst,
                In work found
                /\ In authorship (work_authorships work)
                /\ authorship_auth_id authorship = Some a
                /\ In inst (authorship_institutions authorship)
                /\ inst_id inst = Some school_id.
Proof.
  cbv zeta. split; [apply build_keys_NoDup |].
  intros a. rewrite in_dict_keys. unfold build_potential_map.
  rewrite get_fold_works. cbn [dict_get]. split.
  - intros [Hg | (w & Hin & Hm)]; [congruence |].
    apply mentions_true in Hm. destruct Hm as (Ha & authorship & inst & Hm).
    split; [exact Ha |]. exists w, authorship, inst. tauto.
  - intros (Ha & w & authorship & inst & Hin & Hm).
    right. exists w. split; [exact Hin |].
    apply mentions_true. split; [exact Ha |]. now exists authorship, inst.
Qed.

(** X4.  Provenance of [top_paper].  Every record returned on the
    cache-miss path carries as [top_paper] the title of a work of the works
    answer that credits the record's author id at the resolved institution:
    the last such work of the answer. *)
Theorem top_paper_is_a_found_work_of_the_author {U : Unicode}
    {S H : Type} `{BaseStorage S} (api : OpenAlex H) (st : S) (h : H)
    (school_name skill_keyword : string) (limit : Z) (f : Faculty) :
  school_matches school_name (search_cache st skill_keyword) = [] ->
  let o := exec api (get_experts school_name skill_keyword limit) st h in
  In f (returned o) ->
  exists inst others earlier work later,
    In (CallInstitutions school_name (inst :: others)) (calls o)
    /\ In (CallWorks (works_filter (result_id inst) skill_keyword) 50
             (earlier ++ work :: later)) (calls o)
    /\ mentions (result_id inst) (id f) work = true
    /\ (forall w, In w later -> mentions (result_id inst) (id f) w = false)
    /\ top_paper f = work_title work.
Proof.
  intros Hmiss o Hf. subst o.
  destruct (miss_record_origin api st h school_name skill_keyword limit f Hmiss Hf)
    as (inst & others & found & request & results & author
        & Hinst & Hworks & _ & _ & Hverify).
  apply verify_author_Some in Hverify.
  destruct Hverify as (_ & _ & _ & Hget & _).
  apply get_build_last in Hget.
  destruct Hget as (earlier & work & later & -> & Hwork & Hlater & Htitle).
  now exists inst, others, earlier, work, later.
Qed.

Section At_top_paper_is_a_found_work_of_the_author_witness.
#[local] Existing Instance Fixtures.ascii_text.
Lemma top_paper_is_a_found_work_of_the_author_witness :
  let st := Fixtures.storage_returning [] in
  let api := Fixtures.mock_get Fixtures.mock_inst_resp
               [Fixtures.gnn_paper; Fixtures.later_paper] [Fixtures.dr_graph] in
  let o := exec api (get_experts "UCLA" "Graph Neural Networks" 10) st 0%nat in
  exists f,
    In f (returned o) /\ top_paper f = Some "Later Paper"
    /\ exists inst others earlier work later,
         In (CallInstitutions "UCLA" (inst :: others)) (calls o)
         /\ In (CallWorks (works_filter (result_id inst) "Graph Neural Networks") 50
                  (earlier ++ work :: later)) (calls o)
         /\ mentions (result_id inst) (id f) work = true
         /\ (forall w, In w later -> mentions (result_id inst) (id f) w = false)
         /\ top_paper f = work_title work.
Proof.
  cbv zeta.
  assert (Hmiss : school_matches "UCLA"
                    (search_cache (Fixtures.storage_returning [])
                       "Graph Neural Networks") = []) by reflexivity.
  eexists. split; [left; reflexivity |]. split; [reflexivity |].
  apply (top_paper_is_a_found_work_of_the_author
           (Fixtures.mock_get Fixtures.mock_inst_resp
              [Fixtures.gnn_paper; Fixtures.later_paper] [Fixtures.dr_graph])
           (Fixtures.storage_returning []) 0%nat
           "UCLA" "Graph Neural Networks" 10 _ Hmiss).
  left. reflexivity.
Defined.
End At_top_paper_is_a_found_work_of_the_author_witness.

(** X5.  Fields of a verified record.  Every record returned on the
    cache-miss path was built from a hydrated author that has at least one
    topic, and its [specialty] is the display name of the author's first
    topic: the fallback specialty "AI", for an author without topics, never
    reaches a returned record, because such an author fails the Computer
    Science check.  Its [h_index] is the author's, and is 0 when the author
    comes without [summary_stats]. *)
Theorem specialty_is_the_first_topic {U : Unicode}
    {S H : Type} `{BaseStorage S} (api : OpenAlex H) (st : S) (h : H)
    (school_name skill_keyword : string) (limit : Z) (f : Faculty) :
  school_matches school_name (search_cache st skill_keyword) = [] ->
  let o := exec api (get_experts school_name skill_keyword limit) st h in
  In f (returned o) ->
  exists request results author first_topic other_topics,
    In (CallAuthors request results) (calls o)
    /\ In author results
    /\ a_id author = Some (id f)
    /\ a_topics author = Some (first_topic :: other_topics)
    /\ specialty f = topic_display_name first_topic
    /\ h_index f = author_h_index author
    /\ (a_summary_stats author = None -> h_index f = 0).
Proof.
  intros Hmiss o Hf. subst o.
  destruct (miss_record_origin api st h school_name skill_keyword limit f Hmiss Hf)
    as (inst & others & found & request & results & author
        & _ & _ & Hcall & Hin & Hverify).
  apply verify_author_Some in Hverify.
  destruct Hverify as (_ & (t & Ht & _) & Hid & _ & _ & Hh & Hspec & _).
  unfold author_specialty in Hspec. unfold topics in Ht, Hspec.
  destruct (a_topics author) as [[| first_topic other_topics] |] eqn:Htopics;
    try (destruct Ht; fail).
  exists request, results, author, first_topic, other_topics.
  repeat split; trivial.
  intros Hnone. rewrite Hh. unfold author_h_index. now rewrite Hnone.
Qed.

Section At_specialty_is_the_first_topic_witness.
#[local] Existing Instance Fixtures.ascii_text.
Lemma specialty_is_the_first_topic_witness :
  let st := Fixtures.storage_returning [] in
  let api := Fixtures.mock_get Fixtures.mock_inst_resp [Fixtures.gnn_paper]
               [Fixtures.dr_graph] in
  let o := exec api (get_experts "UCLA" "Graph Neural Networks" 10) st 0%nat in
  In Fixtures.dr_graph_record (returned o)
  /\ exists request results author first_topic other_topics,
       In (CallAuthors request results) (calls o)
       /\ In author results
       /\ a_id author = Some (id Fixtures.dr_graph_record)
       /\ a_topics author = Some (first_topic :: other_topics)
       /\ specialty Fixtures.dr_graph_record = topic_display_name first_topic
       /\ h_index Fixtures.dr_graph_record = author_h_index author
       /\ (a_summary_stats author = None -> h_index Fixtures.dr_graph_record = 0).
Proof.
  cbv zeta.
  assert (Hmiss : school_matches "UCLA"
                    (search_cache (Fixtures.storage_returning [])
                       "Graph Neural Networks") = []) by reflexivity.
  assert (Hin : In Fixtures.dr_graph_record
                  (returned
                     (exec (Fixtures.mock_get Fixtures.mock_inst_resp
                              [Fixtures.gnn_paper] [Fixtures.dr_graph])
                        (get_experts "UCLA" "Graph Neural Networks" 10)
                        (Fixtures.storage_returning []) 0%nat)))
    by (left; reflexivity).
  split; [exact Hin |].
  exact (specialty_is_the_first_topic
           (Fixtures.mock_get Fixtures.mock_inst_resp [Fixtures.gnn_paper]
              [Fixtures.dr_graph])
           (Fixtures.storage_returning []) 0%nat
           "UCLA" "Graph Neural Networks" 10 Fixtures.dr_graph_record Hmiss Hin).
Defined.
End At_specialty_is_the_first_topic_witness.

(* ===================================================================== *)
(** ** What a cache hit returns                                           *)
(* ===================================================================== *)

Module HitFacts.

Lemma slice_to_length_exact {A : Type} (n : Z) (l : list A) :
  0 <= n -> Z.of_nat (length (slice_to n l)) = Z.min n (Z.of_nat (length l)).
Proof.
  intros Hn. unfold slice_to.
  destruct (Z.leb_spec 0 n) as [_ | Hlt]; [| lia].
  rewrite length_firstn. lia.
Qed.

Lemma StronglySorted_app_cross {A : Type} (R : A -> A -> Prop) (l1 l2 : list A) :
  StronglySorted R (l1 ++ l2) ->
  forall a b, In a l1 -> In b l2 -> R a b.
Proof.
  induction l1 as [| x l1 IH]; cbn; intros Hs a b Ha Hb; [destruct Ha |].
  apply StronglySorted_inv in Hs. destruct Hs as [Hs Hx].
  destruct Ha as [<- | Ha]; [| now apply (IH Hs)].
  rewrite Forall_forall in Hx. apply Hx, in_or_app. now right.
Qed.

Lemma contains_empty (hay : string) : contains "" hay = true.
Proof. destruct hay; reflexivity. Qed.

Lemma school_matches_empty_name {U : Unicode} (cached : list Faculty) :
  school_matches "" cached = cached.
Proof.
  unfold school_matches. change (lower "") with "".
  induction cached as [| f cached IH]; cbn [filter]; [reflexivity |].
  rewrite contains_empty. now f_equal.
Qed.

End HitFacts.

Import HitFacts.

(** X6.  What a cache hit returns.  On a cache hit every returned record
    is one of the cached records and its institution contains the school
    name (case-insensitively); the records returned are the best of the
    matching ones - no matching record left out has a higher [h_index] than
    a returned one; for [limit >= 0] exactly min(limit, number of matching
    records) are returned, so all of them when [limit] is large enough. *)
Theorem cache_hit_returns_the_best_matches {U : Unicode}
    {S H : Type} `{BaseStorage S} (api : OpenAlex H) (st : S) (h : H)
    (school_name skill_keyword : string) (limit : Z) :
  let cached := search_cache st skill_keyword in
  let matching := school_matches school_name cached in
  matching <> [] ->
  let o := exec api (get_experts school_name skill_keyword limit) st h in
  (forall f, In f (returned o) ->
     In f cached
     /\ contains (lower school_name) (lower (last_known_institution f)) = true)
  /\ (exists left_out,
        Permutation matching (returned o ++ left_out)
        /\ forall f g, In f (returned o) -> In g left_out -> h_index g <= h_index f)
  /\ (0 <= limit ->
      Z.of_nat (length (returned o)) = Z.min limit (Z.of_nat (length matching)))
  /\ (Z.of_nat (length matching) <= limit -> Permutation (returned o) matching).
Proof.
  cbv zeta. intros Hhit.
  by_shape api st h school_name skill_keyword limit; try contradiction.
  cbn [returned]. fold cached.
  set (matching := school_matches school_name cached) in *.
  set (full := sorted_desc Z.gtb h_index matching).
  split; [| split; [| split]].
  - intros f Hf. apply slice_to_incl, sorted_desc_In in Hf.
    unfold matching, school_matches in Hf. now apply filter_In in Hf.
  - destruct (slice_to_prefix limit full) as [left_out Hsplit].
    exists left_out. split.
    + rewrite <- Hsplit. symmetry. apply sorted_desc_perm.
    + intros f g Hf Hg.
      pose proof (sorted_desc_sorted h_index matching) as Hsorted.
      fold full in Hsorted. rewrite Hsplit in Hsorted.
      exact (StronglySorted_app_cross _ _ _ Hsorted f g Hf Hg).
  - intros Hlimit. rewrite slice_to_length_exact by exact Hlimit.
    unfold full. now rewrite sorted_desc_length.
  - intros Hall. rewrite slice_to_all.
    + apply sorted_desc_perm.
    + unfold full. now rewrite sorted_desc_length.
Qed.

Section At_cache_hit_returns_the_best_matches_witness.
#[local] Existing Instance Fixtures.ascii_text.
Lemma cache_hit_returns_the_best_matches_witness :
  let st := Fixtures.storage_returning
              [Fixtures.cached_junior; Fixtures.cached_faculty] in
  let api := Fixtures.mock_get Fixtures.mock_inst_resp [] [] in
  let o := exec api (get_experts "ucla" "Graph Neural Networks" 1) st 0%nat in
  returned o = [Fixtures.cached_faculty]
  /\ exists left_out,
       Permutation (school_matches "ucla" (search_cache st "Graph Neural Networks"))
         (returned o ++ left_out)
       /\ forall f g, In f (returned o) -> In g left_out -> h_index g <= h_index f.
Proof.
  cbv zeta. split; [reflexivity |].
  assert (Hhit : school_matches "ucla"
                   (search_cache
                      (Fixtures.storage_returning
                         [Fixtures.cached_junior; Fixtures.cached_faculty])
                      "Graph Neural Networks") <> [])
    by (vm_compute; discriminate).
  exact (proj1 (proj2 (cache_hit_returns_the_best_matches
                         (Fixtures.mock_get Fixtures.mock_inst_resp [] [])
                         (Fixtures.storage_returning
                            [Fixtures.cached_junior; Fixtures.cached_faculty])
                         0%nat "ucla" "Graph Neural Networks" 1 Hhit))).
Defined.
End At_cache_hit_returns_the_best_matches_witness.

(** X7.  Empty school name.  The empty string is contained in every
    institution name, so with [school_name = ""] every cached record
    matches: whenever the store returns anything for the keyword, the call
    is a cache hit, no request is made and the cached records of whatever
    institution are returned, sorted and cut at [limit]. *)
Theorem empty_school_name_hits_on_any_cached_record {U : Unicode}
    {S H : Type} `{BaseStorage S} (api : OpenAlex H) (st : S) (h : H)
    (skill_keyword : string) (limit : Z) :
  search_cache st skill_keyword <> [] ->
  let o := exec api (get_experts "" skill_keyword limit) st h in
  calls o = [CallSearchCache skill_keyword (search_cache st skill_keyword)]
  /\ returned o
     = slice_to limit (sorted_desc Z.gtb h_index (search_cache st skill_keyword))
  /\ store_after o = st /\ service_after o = h.
Proof.
  intros Hcached. cbv zeta.
  by_shape api st h "" skill_keyword limit;
    try (rewrite school_matches_empty_name in *; contradiction).
  cbn. rewrite school_matches_empty_name. repeat split.
Qed.

Section At_empty_school_name_hits_on_any_cached_record_witness.
#[local] Existing Instance Fixtures.ascii_text.
Lemma empty_school_name_hits_on_any_cached_record_witness :
  let st := Fixtures.storage_returning [Fixtures.cached_faculty] in
  let api := Fixtures.mock_get Fixtures.mock_inst_resp [Fixtures.gnn_paper]
               [Fixtures.dr_graph] in
  let o := exec api (get_experts "" "Graph Neural Networks" 10) st 0%nat in
  calls o = [CallSearchCache "Graph Neural Networks" [Fixtures.cached_faculty]]
  /\ returned o = [Fixtures.cached_faculty]
  /\ store_after o = st /\ service_after o = 0%nat.
Proof.
  cbv zeta.
  assert (Hcached : search_cache (Fixtures.storage_returning [Fixtures.cached_faculty])
                      "Graph Neural Networks" <> [])
    by (vm_compute; discriminate).
  exact (empty_school_name_hits_on_any_cached_record
           (Fixtures.mock_get Fixtures.mock_inst_resp [Fixtures.gnn_paper]
              [Fixtures.dr_graph])
           (Fixtures.storage_returning [Fixtures.cached_faculty]) 0%nat
           "Graph Neural Networks" 10 Hcached).
Defined.
End At_empty_school_name_hits_on_any_cached_record_witness.

(* ===================================================================== *)
(** ** The order of the ranking                                           *)
(* ===================================================================== *)

Module RankOrderFacts.

Lemma Qgtb_lt (x y : Q) : Qgtb x y = true <-> (y < x)%Q.
Proof.
  unfold Qgtb. rewrite negb_true_iff, <- not_true_iff_false, Qle_bool_iff.
  split; [apply Qnot_le_lt | apply Qlt_not_le].
Qed.

Lemma Qgtb_le (x y : Q) : Qgtb x y = false <-> (x <= y)%Q.
Proof.
  unfold Qgtb. rewrite negb_false_iff. apply Qle_bool_iff.
Qed.

Section SortQ.
Context {A : Type} (key : A -> Q).

Lemma insert_descQ_sorted (x : A) (l : list A) :
  StronglySorted (descQ key) l ->
  StronglySorted (descQ key) (insert_desc Qgtb key x l).
Proof.
  induction 1 as [| y l Hl IH Hy]; cbn [insert_desc].
  - repeat constructor.
  - destruct (Qgtb (key y) (key x)) eqn:Hcmp.
    + apply Qgtb_lt in Hcmp. constructor; [exact IH |].
      apply Forall_forall. intros z Hz.
      apply (Permutation_in _ (insert_desc_perm Qgtb key x l)) in Hz.
      destruct Hz as [<- | Hz]; [now apply Qlt_le_weak |].
      rewrite Forall_forall in Hy. now apply Hy.
    + apply Qgtb_le in Hcmp. constructor; [now constructor |].
      constructor; [exact Hcmp |].
      eapply Forall_impl; [| exact Hy].
      unfold descQ. intros z Hz. now apply Qle_trans with (key y).
Qed.

Lemma sorted_descQ_sorted (l : list A) :
  StronglySorted (descQ key) (sorted_desc Qgtb key l).
Proof.
  induction l as [| x l IH]; cbn [sorted_desc]; [constructor |].
  now apply insert_descQ_sorted.
Qed.

Lemma insert_descQ_stable (v : Q) (x : A) (l : list A) :
  filter (fun a => Qeq_bool (key a) v) (insert_desc Qgtb key x l)
  = filter (fun a => Qeq_bool (key a) v) (x :: l).
Proof.
  induction l as [| y l IH]; [reflexivity |].
  cbn [insert_desc].
  destruct (Qgtb (key y) (key x)) eqn:Hcmp; [| reflexivity].
  cbn [filter] in *. rewrite IH.
  destruct (Qeq_bool (key y) v) eqn:Hy, (Qeq_bool (key x) v) eqn:Hx;
    try reflexivity.
  apply Qeq_bool_iff in Hy, Hx. apply Qgtb_lt in Hcmp.
  rewrite Hy, Hx in Hcmp. now apply Qlt_irrefl in Hcmp.
Qed.

Lemma sorted_descQ_stable (v : Q) (l : list A) :
  filter (fun a => Qeq_bool (key a) v) (sorted_desc Qgtb key l)
  = filter (fun a => Qeq_bool (key a) v) l.
Proof.
  induction l as [| x l IH]; [reflexivity |].
  cbn [sorted_desc]. rewrite insert_descQ_stable.
  cbn [filter]. now rewrite IH.
Qed.

End SortQ.

Lemma collect_length {A B : Type} (f : A -> option B) (l : list A) :
  (length (collect f l) <= length l)%nat.
Proof.
  induction l as [| x l IH]; cbn; [lia |].
  destruct (f x); cbn; lia.
Qed.

End RankOrderFacts.

Import RankOrderFacts.

(** X8.  Order of the ranking.  [_rank_papers] returns the entries of the
    papers that pass, each once, sorted descending by [relevance_score];
    entries of equal score stand in the order of their papers in the input;
    there are never more entries than papers. *)
Theorem ranking_is_sorted_and_stable {U : Unicode}
    (papers : list Paper) (interests skills : list string) :
  let in_paper_order :=
    collect (rank_paper (target_keywords interests skills)) papers in
  let ranked := _rank_papers papers interests skills in
  StronglySorted (descQ relevance_score) ranked
  /\ Permutation ranked in_paper_order
  /\ (forall v : Q,
        filter (fun e => Qeq_bool (relevance_score e) v) ranked
        = filter (fun e => Qeq_bool (relevance_score e) v) in_paper_order)
  /\ (length ranked <= length papers)%nat.
Proof.
  cbv zeta. unfold _rank_papers. cbv zeta.
  split; [apply sorted_descQ_sorted |].
  split; [apply sorted_desc_perm |].
  split; [intros v; apply sorted_descQ_stable |].
  rewrite sorted_desc_length. apply collect_length.
Qed.

(** X9.  The recommendation.  When [run] returns a payload, its
    recommended papers are the first min(3, number of ranked papers) of the
    ranking, and they are the best: no ranked paper that is left out has a
    higher relevance score than a recommended one. *)
Theorem recommended_are_the_top_scores {U : Unicode}
    (requests_get : string -> Z -> Response) (now_isoformat : string)
    (input_data : InputData) (payload : OutputPayload) :
  run requests_get now_isoformat input_data = Payload payload ->
  let ranked :=
    _rank_papers (_fetch_papers requests_get (authorId input_data) 50)
      (student_interests input_data) (student_skills input_data) in
  exists left_out,
    ranked = recommended_papers payload ++ left_out
    /\ length (recommended_papers payload) = Nat.min 3 (length ranked)
    /\ StronglySorted (descQ relevance_score) (recommended_papers payload)
    /\ forall e e', In e (recommended_papers payload) -> In e' left_out ->
                    (relevance_score e' <= relevance_score e)%Q.
Proof.
  unfold run.
  destruct (_fetch_papers requests_get (authorId input_data) 50) as [| p raw] eqn:Hraw;
    [discriminate |].
  intros [= <-]. cbv zeta. cbn [recommended_papers].
  set (ranked := _rank_papers (p :: raw) (student_interests input_data)
                   (student_skills input_data)).
  assert (Hsorted : StronglySorted (descQ relevance_score) ranked)
    by apply sorted_descQ_sorted.
  change (slice_to 3 ranked) with (firstn 3 ranked).
  exists (skipn 3 ranked).
  rewrite <- (firstn_skipn 3 ranked) in Hsorted.
  split; [symmetry; apply firstn_skipn |].
  split; [apply length_firstn |].
  split.
  - clear - Hsorted. revert Hsorted.
    generalize (firstn 3 ranked) as l1, (skipn 3 ranked) as l2.
    induction l1 as [| x l1 IH]; cbn; intros l2 Hs; [constructor |].
    apply StronglySorted_inv in Hs. destruct Hs as [Hs Hx].
    constructor; [now apply (IH l2) |].
    apply Forall_app in Hx. tauto.
  - exact (StronglySorted_app_cross _ _ _ Hsorted).
Qed.

Section At_recommended_are_the_top_scores_witness.
#[local] Existing Instance Fixtures.ascii_text.
Lemma recommended_are_the_top_scores_witness :
  let papers := [Fixtures.paper3; Fixtures.paper4; Fixtures.paper5; Fixtures.paper1] in
  exists payload left_out,
    run (Fixtures.get_returning papers) "2024-01-01T00:00:00" Fixtures.input_data
    = Payload payload
    /\ map title (recommended_papers payload)
       = ["Deep Learning with Transformers"; "Transformers at Scale"; "Python for NLP"]
    /\ map title left_out = ["Irrelevant Biology Study"]
    /\ forall e e', In e (recommended_papers payload) -> In e' left_out ->
                    (relevance_score e' <= relevance_score e)%Q.
Proof.
  cbv zeta.
  destruct (recommended_are_the_top_scores
              (Fixtures.get_returning
                 [Fixtures.paper3; Fixtures.paper4; Fixtures.paper5; Fixtures.paper1])
              "2024-01-01T00:00:00" Fixtures.input_data _ eq_refl)
    as (left_out & Hsplit & _ & _ & Hbest).
  eexists. exists left_out.
  split; [reflexivity |]. split; [reflexivity |].
  split; [| exact Hbest].
  apply (f_equal (skipn 3)) in Hsplit. vm_compute in Hsplit.
  now rewrite <- Hsplit.
Defined.
End At_recommended_are_the_top_scores_witness.

(** X10.  Error or payload.  [run] returns the error object exactly when
    the fetch yields no paper.  When papers are fetched but none of them
    passes the filter and the threshold, [run] does not signal an error: it
    returns a payload whose list of recommended papers is empty. *)
Theorem error_only_when_nothing_is_fetched {U : Unicode}
    (requests_get : string -> Z -> Response) (now_isoformat : string)
    (input_data : InputData) :
  let fetched := _fetch_papers requests_get (authorId input_data) 50 in
  (forall message,
     run requests_get now_isoformat input_data = ErrorResult message
     <-> fetched = [] /\ message = "No papers found or API error.")
  /\ (fetched <> [] ->
      _rank_papers fetched (student_interests input_data)
        (student_skills input_data) = [] ->
      exists payload,
        run requests_get now_isoformat input_data = Payload payload
        /\ recommended_papers payload = []).
Proof.
  cbv zeta. unfold run.
  destruct (_fetch_papers requests_get (authorId input_data) 50) as [| p raw].
  - split.
    + intros message. split; [intros [= <-]; now split | intros [_ ->]; reflexivity].
    + intros Hne. contradiction.
  - split.
    + intros message. split; [discriminate | intros [Hnil _]; discriminate].
    + intros _ Hnone. eexists. split; [reflexivity |].
      cbn [recommended_papers]. now rewrite Hnone.
Qed.

Section At_error_only_when_nothing_is_fetched_witness.
#[local] Existing Instance Fixtures.ascii_text.
Lemma error_only_when_nothing_is_fetched_witness :
  exists payload,
    run (Fixtures.get_returning [Fixtures.paper2]) "2024-01-01T00:00:00"
      Fixtures.input_data = Payload payload
    /\ recommended_papers payload = [].
Proof.
  apply (proj2 (error_only_when_nothing_is_fetched
                  (Fixtures.get_returning [Fixtures.paper2])
                  "2024-01-01T00:00:00" Fixtures.input_data)).
  - vm_compute. discriminate.
  - reflexivity.
Defined.
End At_error_only_when_nothing_is_fetched_witness.

(* ===================================================================== *)
(** ** Scores                                                             *)
(* ===================================================================== *)

Module ScoreFacts.

(** A surviving paper's entry is ranked exactly when its score is
    positive. *)
Lemma entry_ranked_iff {U : Unicode}
    (papers : list Paper) (interests skills : list string)
    (paper : Paper) (abstract : string) (y : Z) :
  In paper papers -> survives_filter paper abstract y ->
  In (spec_entry interests skills paper abstract y)
     (_rank_papers papers interests skills)
  <-> (0 < spec_score interests skills paper abstract)%Q.
Proof.
  intros Hin Hsurvives. rewrite in_rank_papers. split.
  - intros (paper' & _ & Hrank). apply rank_paper_Some in Hrank.
    destruct Hrank as (abstract' & y' & _ & Hpos & Heq).
    apply (f_equal relevance_score) in Heq. cbn in Heq. now rewrite Heq.
  - intros Hpos. exists paper. split; [exact Hin |].
    apply rank_paper_Some. now exists abstract, y.
Qed.

Lemma ranked_entry_origin {U : Unicode}
    (papers : list Paper) (interests skills : list string)
    (e : ScoredPaper) :
  In e (_rank_papers papers interests skills) ->
  exists paper abstract y,
    In paper papers /\ survives_filter paper abstract y
    /\ (0 < spec_score interests skills paper abstract)%Q
    /\ e = spec_entry interests skills paper abstract y.
Proof.
  intros He. apply in_rank_papers in He. destruct He as (paper & Hin & Hrank).
  apply rank_paper_Some in Hrank.
  destruct Hrank as (abstract & y & Hsurvives & Hpos & ->).
  now exists paper, abstract, y.
Qed.

Lemma hundredth_pos (c : Z) : (0 < inject_Z c / 100)%Q <-> 1 <= c.
Proof.
  unfold Qlt, Qdiv, Qmult, Qinv, inject_Z. cbn. lia.
Qed.

Lemma bonus_pos (paper : Paper) :
  (0 < spec_bonus paper)%Q
  <-> exists c, paper_citationCount paper = Some c /\ 1 <= c.
Proof.
  unfold spec_bonus. rewrite Q.min_glb_lt_iff, hundredth_pos. split.
  - intros [Hc _]. destruct (paper_citationCount paper) as [c |]; [| lia].
    now exists c.
  - intros (c & -> & Hc). split; [exact Hc | reflexivity].
Qed.

Lemma bonus_le_2 (paper : Paper) : (spec_bonus paper <= 2)%Q.
Proof. unfold spec_bonus. apply Q.le_min_r. Qed.

Lemma bonus_nonneg (paper : Paper) :
  (forall c, paper_citationCount paper = Some c -> 0 <= c) ->
  (0 <= spec_bonus paper)%Q.
Proof.
  intros Hc. unfold spec_bonus. apply Q.min_glb; [| discriminate].
  destruct (paper_citationCount paper) as [c |].
  - specialize (Hc c eq_refl).
    unfold Qle, Qdiv, Qmult, Qinv, inject_Z. cbn. lia.
  - discriminate.
Qed.

Lemma filter_length_le {A : Type} (f : A -> bool) (l : list A) :
  (length (filter f l) <= length l)%nat.
Proof.
  induction l as [| x l IH]; cbn; [lia |].
  destruct (f x); cbn; lia.
Qed.

End ScoreFacts.

Import ScoreFacts.

(** X11.  Ranking on citations alone.  A paper that passes the filter but
    matches no keyword is in the ranking if and only if it has a citation
    count of at least 1; its score is then the citation bonus alone,
    min(citationCount / 100, 2). *)
Theorem unmatched_paper_ranks_on_citations_alone {U : Unicode}
    (papers : list Paper) (interests skills : list string)
    (paper : Paper) (abstract : string) (y : Z) :
  In paper papers ->
  survives_filter paper abstract y ->
  spec_matched interests skills paper abstract = [] ->
  (In (spec_entry interests skills paper abstract y)
      (_rank_papers papers interests skills)
   <-> exists c, paper_citationCount paper = Some c /\ 1 <= c)
  /\ (spec_score interests skills paper abstract == spec_bonus paper)%Q.
Proof.
  intros Hin Hsurvives Hnone.
  assert (Hscore : (spec_score interests skills paper abstract
                    == spec_bonus paper)%Q).
  { rewrite spec_score_unrounded, Hnone. cbn [length Z.of_nat]. ring. }
  split; [| exact Hscore].
  rewrite entry_ranked_iff by assumption.
  rewrite Hscore. apply bonus_pos.
Qed.

Section At_unmatched_paper_ranks_on_citations_alone_witness.
#[local] Existing Instance Fixtures.ascii_text.
Lemma unmatched_paper_ranks_on_citations_alone_witness :
  In (spec_entry ["Deep Learning"; "NLP"] ["Python"; "Transformers"]
        Fixtures.paper3 "Cells and mitochondria analysis." 2022)
     (_rank_papers Fixtures.mock_papers ["Deep Learning"; "NLP"]
        ["Python"; "Transformers"])
  <-> exists c, paper_citationCount Fixtures.paper3 = Some c /\ 1 <= c.
Proof.
  apply (unmatched_paper_ranks_on_citations_alone Fixtures.mock_papers
           ["Deep Learning"; "NLP"] ["Python"; "Transformers"]
           Fixtures.paper3 "Cells and mitochondria analysis." 2022).
  - right; right; now left.
  - repeat split; [discriminate | lia].
  - reflexivity.
Defined.
End At_unmatched_paper_ranks_on_citations_alone_witness.

(** X12.  Bounds of a score.  Every relevance score in the ranking is at
    least 0.01 and at most the number of distinct keywords plus 2. *)
Theorem relevance_score_bounds {U : Unicode}
    (papers : list Paper) (interests skills : list string) (e : ScoredPaper) :
  In e (_rank_papers papers interests skills) ->
  (1 # 100 <= relevance_score e)%Q
  /\ (relevance_score e
      <= inject_Z (Z.of_nat (length (target_keywords interests skills))) + 2)%Q.
Proof.
  intros He. apply ranked_entry_origin in He.
  destruct He as (paper & abstract & y & _ & _ & Hpos & ->).
  cbn [relevance_score spec_entry].
  set (n := Z.of_nat (length (spec_matched interests skills paper abstract))) in *.
  rewrite spec_score_unrounded in *. fold n in Hpos |- *.
  split.
  - unfold spec_bonus in *.
    set (c := match paper_citationCount paper with Some c => c | None => 0 end) in *.
    pose proof (hundredths n c) as Hh.
    assert (Hm : 1 <= 100 * n + Z.min c 200).
    { assert (Hlt : (0 < inject_Z (100 * n + Z.min c 200))%Q).
      { rewrite <- Hh. apply Qmult_lt_0_compat; [exact Hpos | reflexivity]. }
      unfold Qlt in Hlt. cbn [Qnum Qden inject_Z] in Hlt. lia. }
    apply Qmult_le_r with (z := 100%Q); [reflexivity |].
    rewrite Hh. unfold Qle, Qmult. cbn [Qnum Qden inject_Z]. lia.
  - apply Qplus_le_compat; [| apply bonus_le_2].
    rewrite <- Zle_Qle. subst n. apply inj_le.
    unfold spec_matched. apply filter_length_le.
Qed.

Section At_relevance_score_bounds_witness.
#[local] Existing Instance Fixtures.ascii_text.
Lemma relevance_score_bounds_witness :
  let e := spec_entry ["Deep Learning"; "NLP"] ["Python"; "Transformers"]
             Fixtures.paper1 "A study on NLP using Python and Transformers." 2023 in
  (relevance_score e == 45 # 10)%Q
  /\ (1 # 100 <= relevance_score e)%Q
  /\ (relevance_score e
      <= inject_Z (Z.of_nat (length (target_keywords ["Deep Learning"; "NLP"]
                                       ["Python"; "Transformers"]))) + 2)%Q.
Proof.
  cbv zeta. split; [reflexivity |].
  apply (relevance_score_bounds Fixtures.mock_papers
           ["Deep Learning"; "NLP"] ["Python"; "Transformers"]).
  vm_compute. now left.
Defined.
End At_relevance_score_bounds_witness.

(** X13.  An empty keyword.  The empty string occurs in every text, so if
    one of the interests or skills is the empty string, every paper that
    passes the filter and has no negative citation count is ranked: the
    empty keyword is among its matched keywords and its score is at least
    1, whatever the paper is about. *)
Theorem empty_keyword_matches_every_paper {U : Unicode}
    (papers : list Paper) (interests skills : list string)
    (paper : Paper) (abstract : string) (y : Z) :
  In "" (interests ++ skills) ->
  In paper papers ->
  survives_filter paper abstract y ->
  (forall c, paper_citationCount paper = Some c -> 0 <= c) ->
  let e := spec_entry interests skills paper abstract y in
  In e (_rank_papers papers interests skills)
  /\ In "" (matched_keywords e)
  /\ (1 <= relevance_score e)%Q.
Proof.
  intros Hempty Hin Hsurvives Hcites. cbv zeta.
  assert (Hmatched : In "" (spec_matched interests skills paper abstract)).
  { unfold spec_matched. apply filter_In. split; [| apply contains_empty].
    apply (proj2 (target_keywords_spec interests skills)).
    now exists "". }
  assert (Hscore : (1 <= spec_score interests skills paper abstract)%Q).
  { rewrite spec_score_unrounded.
    rewrite <- (Qplus_0_r 1). apply Qplus_le_compat; [| now apply bonus_nonneg].
    change 1%Q with (inject_Z 1). rewrite <- Zle_Qle.
    destruct (spec_matched interests skills paper abstract); [destruct Hmatched |].
    cbn [length]. lia. }
  split; [| split; [exact Hmatched | exact Hscore]].
  apply entry_ranked_iff; try assumption.
  apply Qlt_le_trans with (y := 1%Q); [reflexivity | exact Hscore].
Qed.

Section At_empty_keyword_matches_every_paper_witness.
#[local] Existing Instance Fixtures.ascii_text.
Lemma empty_keyword_matches_every_paper_witness :
  let e := spec_entry [""] [] Fixtures.paper4 "Tooling notes." 2021 in
  In e (_rank_papers [Fixtures.paper4] [""] [])
  /\ In "" (matched_keywords e)
  /\ (1 <= relevance_score e)%Q.
Proof.
  cbv zeta.
  apply (empty_keyword_matches_every_paper [Fixtures.paper4] [""] []
           Fixtures.paper4 "Tooling notes." 2021).
  - now left.
  - now left.
  - repeat split; [discriminate | lia].
  - intros c [= <-]. lia.
Defined.
End At_empty_keyword_matches_every_paper_witness.

(* ===================================================================== *)
(** ** Snippets, keywords and the profile                                 *)
(* ===================================================================== *)

Module TextFacts.

Lemma len_append (a b : string) : len (a ++ b)%string = (len a + len b)%nat.
Proof.
  induction a as [| c a IH]; cbn [append len]; [reflexivity |].
  destruct (is_continuation c); now rewrite IH.
Qed.

Lemma str_take_len (s : string) :
  forall n : nat, len (str_take n s) = Nat.min n (len s).
Proof.
  induction s as [| c s IH]; intros n; cbn [str_take len].
  - now rewrite Nat.min_0_r.
  - destruct (is_continuation c) eqn:Hc.
    + cbn [len]. rewrite Hc. apply IH.
    + destruct n as [| n]; [reflexivity |].
      cbn [len]. rewrite Hc, IH. reflexivity.
Qed.

Lemma str_take_all (s : string) :
  forall n : nat, (len s <= n)%nat -> str_take n s = s.
Proof.
  induction s as [| c s IH]; intros n; cbn [str_take len]; [reflexivity |].
  destruct (is_continuation c).
  - intros Hlen. now rewrite IH.
  - destruct n as [| n]; intros Hlen; [lia |].
    rewrite IH by lia. reflexivity.
Qed.

Lemma str_take_prefix (s : string) :
  forall n : nat, String.prefix (str_take n s) s = true.
Proof.
  induction s as [| c s IH]; intros n; cbn [str_take]; [reflexivity |].
  destruct (is_continuation c).
  - cbn [String.prefix]. destruct (ascii_dec c c); [apply IH | congruence].
  - destruct n as [| n]; [reflexivity |].
    cbn [String.prefix]. destruct (ascii_dec c c); [apply IH | congruence].
Qed.

Lemma filter_perm {A : Type} (f : A -> bool) (l l' : list A) :
  Permutation l l' -> Permutation (filter f l) (filter f l').
Proof.
  induction 1 as [| x l l' _ IH | x y l | l l' l'' _ IH1 _ IH2]; cbn.
  - constructor.
  - destruct (f x); [now constructor | exact IH].
  - destruct (f x), (f y); try reflexivity. apply perm_swap.
  - now transitivity (filter f l').
Qed.

(** With the same keywords in another order a paper is skipped or kept
    alike, and a kept paper gets the same entry up to the order of its
    matched keywords. *)
Lemma rank_paper_perm {U : Unicode}
    (keywords keywords' : list string) (paper : Paper) :
  Permutation keywords keywords' ->
  match rank_paper keywords paper, rank_paper keywords' paper with
  | Some e, Some e' => same_entry e e'
  | None, None => True
  | _, _ => False
  end.
Proof.
  intros Hperm. unfold rank_paper.
  destruct (paper_abstract paper) as [abstract |]; [| exact I].
  destruct (paper_year paper) as [y |]; [| exact I].
  destruct (negb (str_truthy abstract)); [exact I |].
  destruct (y <? 2018); [exact I |].
  rewrite !keyword_loop_filter.
  set (text := text_content (paper_title paper) abstract).
  pose proof (filter_perm (fun k => contains k text) _ _ Hperm) as Hmatched.
  rewrite <- (Permutation_length Hmatched).
  destruct (Qgtb _ 0%Q); [| exact I].
  unfold same_entry. cbn. repeat split. exact Hmatched.
Qed.

Lemma collect_Forall2 {A B : Type} (R : B -> B -> Prop) (f g : A -> option B)
    (l : list A) :
  (forall x, match f x, g x with
             | Some y, Some y' => R y y'
             | None, None => True
             | _, _ => False
             end) ->
  Forall2 R (collect f l) (collect g l).
Proof.
  intros Hfg. induction l as [| x l IH]; cbn; [constructor |].
  specialize (Hfg x). destruct (f x), (g x); try contradiction.
  - now constructor.
  - exact IH.
Qed.

Section SortForall2.
Context {A K : Type} (gtb : K -> K -> bool) (key : A -> K) (R : A -> A -> Prop).
Hypothesis R_key : forall a b, R a b -> key a = key b.

Lemma insert_desc_Forall2 (x x' : A) (l l' : list A) :
  R x x' -> Forall2 R l l' ->
  Forall2 R (insert_desc gtb key x l) (insert_desc gtb key x' l').
Proof.
  intros Hx. induction 1 as [| y y' l l' Hy Hl IH]; cbn [insert_desc].
  - repeat constructor. exact Hx.
  - rewrite <- (R_key _ _ Hx), <- (R_key _ _ Hy).
    destruct (gtb (key y) (key x)); repeat constructor; assumption.
Qed.

Lemma sorted_desc_Forall2 (l l' : list A) :
  Forall2 R l l' ->
  Forall2 R (sorted_desc gtb key l) (sorted_desc gtb key l').
Proof.
  induction 1 as [| x x' l l' Hx Hl IH]; cbn [sorted_desc]; [constructor |].
  now apply insert_desc_Forall2.
Qed.

End SortForall2.

End TextFacts.

Import TextFacts.

(** Slices and lengths count characters: "école" has five, the first
    of two bytes. *)
Example str_take_counts_characters :
  len "école" = 5%nat /\ String.length "école" = 6%nat
  /\ str_take 2 "école" = "éc" /\ str_take 9 "école" = "école".
Proof. vm_compute. repeat split. Qed.

(** X14.  The snippet.  The [abstract_snippet] of every ranked entry is
    the first 200 characters of its paper's abstract followed by "...": it
    is min(200, number of characters of the abstract) + 3 characters long,
    and for an abstract of at most 200 characters it is the whole abstract
    with "..." appended, although nothing was cut.  Characters are counted
    as Python counts them, whatever the number of bytes of each. *)
Theorem snippet_is_the_abstract_cut_at_200 {U : Unicode}
    (papers : list Paper) (interests skills : list string) (e : ScoredPaper) :
  In e (_rank_papers papers interests skills) ->
  exists paper abstract,
    In paper papers /\ paper_abstract paper = Some abstract
    /\ title e = paper_title paper
    /\ abstract_snippet e = (str_take 200 abstract ++ "...")%string
    /\ String.prefix (str_take 200 abstract) abstract = true
    /\ len (str_take 200 abstract) = Nat.min 200 (len abstract)
    /\ len (abstract_snippet e) = (Nat.min 200 (len abstract) + 3)%nat
    /\ ((len abstract <= 200)%nat ->
        abstract_snippet e = (abstract ++ "...")%string).
Proof.
  intros He. apply ranked_entry_origin in He.
  destruct He as (paper & abstract & y & Hin & (Ha & _) & _ & ->).
  exists paper, abstract. cbn [abstract_snippet title spec_entry].
  repeat split; trivial.
  - apply str_take_prefix.
  - apply str_take_len.
  - now rewrite len_append, str_take_len.
  - intros Hshort. now rewrite str_take_all.
Qed.

Section At_snippet_is_the_abstract_cut_at_200_witness.
#[local] Existing Instance Fixtures.ascii_text.
Lemma snippet_is_the_abstract_cut_at_200_witness :
  exists paper abstract,
    In paper Fixtures.mock_papers /\ paper_abstract paper = Some abstract
    /\ "Irrelevant Biology Study" = paper_title paper
    /\ "Cells and mitochondria analysis...."
       = (str_take 200 abstract ++ "...")%string.
Proof.
  destruct (snippet_is_the_abstract_cut_at_200 Fixtures.mock_papers
              ["Deep Learning"; "NLP"] ["Python"; "Transformers"]
              (spec_entry ["Deep Learning"; "NLP"] ["Python"; "Transformers"]
                 Fixtures.paper3 "Cells and mitochondria analysis." 2022))
    as (paper & abstract & Hin & Ha & Ht & Hs & _).
  - vm_compute. right. now left.
  - exists paper, abstract. repeat split; assumption.
Defined.
End At_snippet_is_the_abstract_cut_at_200_witness.

(** X15.  Only the set of keywords counts.  Two student profiles whose
    interests and skills give the same set of lowercased keywords -
    whatever the letter case, the order, the repetitions, or the split into
    interests and skills - rank any papers alike: the same papers in the
    same order with the same scores and snippets; the matched keywords of
    an entry agree up to their order.  In particular the ranking does not
    depend on the order in which the keyword set is traversed. *)
Theorem ranking_depends_on_the_keyword_set_only {U : Unicode}
    (papers : list Paper) (interests skills interests' skills' : list string) :
  (forall k, In k (map lower (interests ++ skills))
             <-> In k (map lower (interests' ++ skills'))) ->
  Forall2 same_entry (_rank_papers papers interests skills)
                     (_rank_papers papers interests' skills').
Proof.
  intros Hsame.
  assert (Hperm : Permutation (target_keywords interests skills)
                              (target_keywords interests' skills')).
  { unfold target_keywords.
    apply NoDup_Permutation; try apply NoDup_nodup.
    intros k. now rewrite !nodup_In. }
  unfold _rank_papers. cbv zeta.
  apply sorted_desc_Forall2.
  - intros a b Hab. apply Hab.
  - apply collect_Forall2. intros paper. now apply rank_paper_perm.
Qed.

Section At_ranking_depends_on_the_keyword_set_only_witness.
#[local] Existing Instance Fixtures.ascii_text.
Lemma ranking_depends_on_the_keyword_set_only_witness :
  Forall2 same_entry
    (_rank_papers Fixtures.mock_papers ["Deep Learning"; "NLP"]
       ["Python"; "Transformers"])
    (_rank_papers Fixtures.mock_papers ["TRANSFORMERS"; "python"; "nlp"]
       ["deep learning"; "Python"]).
Proof.
  apply (ranking_depends_on_the_keyword_set_only Fixtures.mock_papers
           ["Deep Learning"; "NLP"] ["Python"; "Transformers"]
           ["TRANSFORMERS"; "python"; "nlp"] ["deep learning"; "Python"]).
  intros k. cbn. tauto.
Defined.
End At_ranking_depends_on_the_keyword_set_only_witness.


Section At_matched_keywords_witness.
#[local] Existing Instance Fixtures.ascii_text.
End At_matched_keywords_witness.

(* ===================================================================== *)
(** ** The limit, and the User-Agent header                               *)
(* ===================================================================== *)

Module LimitFacts.

Section Uniform.
Context {S H : Type} `{BaseStorage S} (api : OpenAlex H).

(** The answers of the batch loop do not depend on what follows it. *)
Lemma exec_hydrate_uniform (school_id school_display : string)
    (potential_map : list (string * option string)) (todo : list (list string)) :
  forall (verified_list : list Faculty) (h : H),
  exists (answers : list (string * list Author)) (h' : H),
    forall (A : Type) (k : list Faculty -> Prog A) (st : S),
      exec api (hydrate school_id school_display potential_map todo verified_list k) st h
      = after_calls (map call_authors answers)
          (exec api
             (k (verified_list
                 ++ verify_batch school_id school_display potential_map
                      (hydrated answers)))
             st h').
Proof.
  induction todo as [| batch todo IH]; intros verified_list h.
  - exists [], h. intros A k st. cbn. rewrite app_nil_r. now rewrite after_calls_nil.
  - destruct (authors api h ("id:" ++ join "|" batch)%string) as [results h1] eqn:Hreq.
    destruct (IH (verified_list
                  ++ verify_batch school_id school_display potential_map results) h1)
      as (answers & h' & Hexec).
    exists ((authors_filter batch, results) :: answers), h'. intros A k st.
    cbn [hydrate exec]. rewrite Hreq, Hexec, logged_after_calls.
    unfold hydrated, verify_batch. cbn [map concat snd].
    rewrite collect_app, app_assoc. reflexivity.
Qed.

Lemma cache_miss_uniform (st : S) (h : H) (school_name skill_keyword : string) :
  exists (full : list Faculty) (st' : S) (h' : H) (tr : list Call),
    forall limit : Z,
      exec api (cache_miss school_name skill_keyword limit) st h
      = {| returned := slice_to limit full; store_after := st';
           service_after := h'; calls := tr |}.
Proof.
  unfold cache_miss. cbn [exec].
  destruct (institutions api h school_name) as [[| inst others] h1].
  - exists [], st, h1, [CallInstitutions school_name []]. intros limit. cbn.
    unfold slice_to. destruct (0 <=? limit); now rewrite firstn_nil.
  - fold (works_filter (result_id inst) skill_keyword). cbn [exec].
    destruct (works api h1 (works_filter (result_id inst) skill_keyword) 50)
      as [found h2].
    destruct (exec_hydrate_uniform (result_id inst) (result_display_name inst)
                (build_potential_map (result_id inst) found)
                (batches (dict_keys (build_potential_map (result_id inst) found)))
                [] h2) as (answers & h3 & Hexec).
    set (full := sorted_desc Z.gtb h_index
                   (verify_batch (result_id inst) (result_display_name inst)
                      (build_potential_map (result_id inst) found)
                      (hydrated answers))).
    exists full, (save_faculty st full), h3,
      (CallInstitutions school_name (inst :: others)
       :: CallWorks (works_filter (result_id inst) skill_keyword) 50 found
       :: map call_authors answers ++ [CallSaveFaculty full]).
    intros limit. rewrite Hexec. reflexivity.
Qed.

End Uniform.

Lemma prefix_app (a b : string) : String.prefix a (a ++ b)%string = true.
Proof.
  induction a as [| c a IH]; cbn; [now destruct b |].
  destruct (ascii_dec c c); [exact IH | congruence].
Qed.

Lemma contains_prefix (needle hay : string) :
  String.prefix needle hay = true -> contains needle hay = true.
Proof. intros Hp. destruct hay; cbn [contains]; now rewrite Hp. Qed.

Lemma contains_app_r (needle a hay : string) :
  contains needle hay = true -> contains needle (a ++ hay)%string = true.
Proof.
  intros Hc. induction a as [| c a IH]; [exact Hc |].
  cbn [append contains]. rewrite IH. now destruct (String.prefix _ _).
Qed.

End LimitFacts.

Import LimitFacts Headers.

(** X17.  The limit only cuts the result.  For given store, service,
    school and keyword there is one sorted list such that, for every
    [limit], [get_experts] returns its slice [[:limit]]; the calls made,
    the list saved, the store and the service afterwards are the same for
    every [limit]. *)
Theorem limit_only_cuts_the_result {U : Unicode}
    {S H : Type} `{BaseStorage S} (api : OpenAlex H) (st : S) (h : H)
    (school_name skill_keyword : string) :
  exists (full : list Faculty) (st' : S) (h' : H) (tr : list Call),
    StronglySorted (desc h_index) full
    /\ forall limit : Z,
         exec api (get_experts school_name skill_keyword limit) st h
         = {| returned := slice_to limit full; store_after := st';
              service_after := h'; calls := tr |}.
Proof.
  assert (Hrun : exists (full : list Faculty) (st' : S) (h' : H) (tr : list Call),
             forall limit : Z,
               exec api (get_experts school_name skill_keyword limit) st h
               = {| returned := slice_to limit full; store_after := st';
                    service_after := h'; calls := tr |}).
  { unfold get_experts. cbn [exec].
    destruct (cache_miss_uniform api st h school_name skill_keyword)
      as (full & st' & h' & tr & Hmiss).
    destruct (search_cache st skill_keyword) as [| f cached] eqn:Hcached.
    - exists full, st', h', (CallSearchCache skill_keyword [] :: tr).
      intros limit. now rewrite Hmiss.
    - destruct (school_matches school_name (f :: cached)) as [| m ms] eqn:Hm.
      + exists full, st', h', (CallSearchCache skill_keyword (f :: cached) :: tr).
        intros limit. now rewrite Hmiss.
      + exists (sorted_desc Z.gtb h_index (m :: ms)), st, h,
          [CallSearchCache skill_keyword (f :: cached)].
        intros limit. reflexivity. }
  destruct Hrun as (full & st' & h' & tr & Hrun).
  exists full, st', h', tr. split; [| exact Hrun].
  (* [full] is the result for a limit that cuts nothing *)
  pose proof (Hrun (Z.of_nat (length full))) as Hall.
  rewrite slice_to_all in Hall by lia.
  apply (f_equal returned) in Hall. cbn [returned] in Hall. rewrite <- Hall.
  pose proof (get_experts_shape api st h school_name skill_keyword
                (Z.of_nat (length full))) as Hshape.
  remember (exec api (get_experts school_name skill_keyword
                        (Z.of_nat (length full))) st h) as o eqn:Ho.
  clear Ho Hall. destruct Hshape; cbn [returned];
    try apply slice_to_sorted; try apply sorted_desc_sorted.
  constructor.
Qed.

(** X18.  The User-Agent header of the discovery client always starts with
    "FacultyAgent/1.0"; it contains a "mailto:" part exactly when a
    non-empty contact email is given, and then ends with that email in
    parentheses; without an email (none, or the empty string) it is the
    plain identifier. *)
Theorem user_agent_names_the_contact_email (email : option string) :
  String.prefix "FacultyAgent/1.0" (agent_str email) = true
  /\ (contains "mailto:" (agent_str email) = true
      <-> exists e, email = Some e /\ e <> "")
  /\ (forall e, email = Some e -> e <> "" ->
        agent_str email = ("FacultyAgent/1.0 (mailto:" ++ e ++ ")")%string)
  /\ (email = None \/ email = Some "" -> agent_str email = "FacultyAgent/1.0").
Proof.
  destruct email as [[| c e] |]; cbn [agent_str str_truthy].
  - repeat split; try reflexivity.
    + intros Hc. vm_compute in Hc. discriminate.
    + intros (e & [= <-] & Hne). congruence.
    + intros e [= <-] Hne. congruence.
  - split; [reflexivity |]. split; [split |]; [| | split].
    + intros _. exists (String c e). split; [reflexivity | discriminate].
    + intros _.
      exact (contains_app_r "mailto:" "FacultyAgent/1.0 ("
               ("mailto:" ++ String c e ++ ")")
               (contains_prefix _ _ (prefix_app "mailto:" (String c e ++ ")")))).
    + intros e' [= <-] _. reflexivity.
    + intros [Hn | Hn]; discriminate.
  - repeat split; try reflexivity.
    + intros Hc. vm_compute in Hc. discriminate.
    + intros (e & Hn & _). discriminate.
    + intros e Hn. discriminate.
Qed.
